(** * voxblox_ros/ptcloud_vis.h: layers visualised as pointclouds and markers

    A shallow embedding of the visualisation header of voxblox_ros: the
    three generic traversals ([createColorPointcloudFromLayer] in its colour
    and intensity overloads, [createOccupancyBlocksFromLayer]), the four
    sample voxel predicates and the preset bindings, followed by the
    properties of the traversals. *)

From Stdlib Require Import ZArith Bool String SpecFloat Lia.
From Stdlib Require Import QArith Qabs Qpower.
From stdpp Require Import base option list gmap.

Local Open Scope Z_scope.

(** ** Machine numbers *)

(** [size_t] on the 64-bit targets of the package: products wrap. *)
Definition size_t_bits : Z := 64.
Definition size_t_modulus : Z := 2 ^ size_t_bits.
Definition size_t_mul (a b : Z) : Z := (a * b) mod size_t_modulus.

(** IEEE 754 values are [spec_float]s of the Standard Library; [float] is
    binary32 and [double] is binary64. *)
Module F32.
Definition prec : Z := 24.
Definition emax : Z := 128.
Definition of_Z (n : Z) : spec_float := binary_normalize prec emax n 0 false.
Definition abs (x : spec_float) : spec_float := SFabs x.
Definition sub (x y : spec_float) : spec_float := SFsub prec emax x y.
Definition mul (x y : spec_float) : spec_float := SFmul prec emax x y.
Definition div (x y : spec_float) : spec_float := SFdiv prec emax x y.
Definition ltb (x y : spec_float) : bool := SFltb x y.
Definition leb (x y : spec_float) : bool := SFleb x y.
Definition gtb (x y : spec_float) : bool := SFltb y x.
End F32.

Module F64.
Definition prec : Z := 53.
Definition emax : Z := 1024.
Definition of_Z (n : Z) : spec_float := binary_normalize prec emax n 0 false.
Definition div (x y : spec_float) : spec_float := SFdiv prec emax x y.
Definition ltb (x y : spec_float) : bool := SFltb x y.
Definition gtb (x y : spec_float) : bool := SFltb y x.
End F64.

(** The implicit conversion of a [float] to [double]: exact. *)
Definition float_to_double (x : spec_float) : spec_float :=
  match x with
  | S754_finite s m e =>
      binary_normalize F64.prec F64.emax (cond_Zopp s (Zpos m)) e s
  | _ => x
  end.

(** The implicit conversion of a [double] to [float]: rounds to nearest,
    ties to even. *)
Definition double_to_float (x : spec_float) : spec_float :=
  match x with
  | S754_finite s m e =>
      binary_normalize F32.prec F32.emax (cond_Zopp s (Zpos m)) e s
  | _ => x
  end.

(** The literal [1e-3], a [double]. *)
Definition lit_1e_3 : spec_float := F64.div (F64.of_Z 1) (F64.of_Z 1000).

(** The values that stand for a number: zeros and finite values. *)
Definition is_finite (x : spec_float) : bool :=
  match x with
  | S754_zero _ | S754_finite _ _ _ => true
  | _ => false
  end.

(** The number a zero or a finite value stands for, as a fraction. *)
Definition SF2Q (x : spec_float) : Q :=
  match x with
  | S754_finite s m e => (inject_Z (cond_Zopp s (Zpos m)) * Qpower 2 e)%Q
  | _ => 0%Q
  end.

(** The numbers of each format: a value in the canonical form of the
    format, which is not an infinity and not a NaN. *)
Definition is_float (x : spec_float) : bool :=
  valid_binary F32.prec F32.emax x && is_finite x.

Definition is_double (x : spec_float) : bool :=
  valid_binary F64.prec F64.emax x && is_finite x.

(** ** Data model *)

(** [voxblox::Point]: three [float] coordinates. *)
Record Point := { x : spec_float; y : spec_float; z : spec_float }.

(** [voxblox::Color]: four [uint8_t] channels. *)
Record Color := { r : Z; g : Z; b : Z; a : Z }.

(** [voxblox::BlockIndex]: three [int] components. *)
Abbreviation BlockIndex := (Z * Z * Z)%type.

(** Modelled from the spec: the signed-distance voxel ([TsdfVoxel], declared
    in voxblox/core/voxel.h) with its [float] distance and weight and its
    stored colour. *)
Record TsdfVoxel := {
  tsdf_distance : spec_float;
  tsdf_weight : spec_float;
  tsdf_color : Color
}.

(** Modelled from the spec: the Euclidean-distance voxel ([EsdfVoxel],
    declared in voxblox/core/voxel.h) with its [float] distance and its
    observed flag. *)
Record EsdfVoxel := {
  esdf_distance : spec_float;
  esdf_observed : bool
}.

(** Modelled from the spec: the block accessor interface ([Block], declared
    in voxblox/core/block.h): the voxel at a linear index and the world
    coordinate reconstructed from a linear index. *)
Record Block (VoxelType : Type) := {
  getVoxelByLinearIndex : Z -> VoxelType;
  computeCoordinatesFromLinearIndex : Z -> Point
}.
Arguments getVoxelByLinearIndex {VoxelType} _ _.
Arguments computeCoordinatesFromLinearIndex {VoxelType} _ _.

(** Modelled from the spec: the field ([Layer], declared in
    voxblox/core/layer.h): a sparse mapping from block index to block with
    the two grid constants; the hash map of the layer is a [gmap]. *)
Record Layer (VoxelType : Type) := {
  voxel_size : spec_float;
  voxels_per_side : Z;
  block_map : gmap BlockIndex (Block VoxelType)
}.
Arguments voxel_size {VoxelType} _.
Arguments voxels_per_side {VoxelType} _.
Arguments block_map {VoxelType} _.

(** [pcl::PointXYZRGB] and [pcl::PointXYZI]: [float] position with [uint8_t]
    channels, respectively a [float] intensity. *)
Record PointXYZRGB := {
  rgb_x : spec_float; rgb_y : spec_float; rgb_z : spec_float;
  rgb_r : Z; rgb_g : Z; rgb_b : Z
}.

Record PointXYZI := {
  i_x : spec_float; i_y : spec_float; i_z : spec_float;
  i_intensity : spec_float
}.

(** [geometry_msgs::Point]: three [double]s; [std_msgs::ColorRGBA]: four
    [float]s. *)
Record GeoPoint := { geo_x : spec_float; geo_y : spec_float; geo_z : spec_float }.
Record ColorRGBA := {
  rgba_r : spec_float; rgba_g : spec_float; rgba_b : spec_float;
  rgba_a : spec_float
}.

(** [visualization_msgs::Marker], the fields the header assigns; the others
    keep the defaults of the message. *)
Record Marker := {
  header_frame_id : string;
  ns : string;
  id : Z;
  type : Z;
  action : Z;
  scale_x : spec_float; scale_y : spec_float; scale_z : spec_float;
  points : list GeoPoint;
  colors : list ColorRGBA
}.

Definition Marker_CUBE_LIST : Z := 6.
Definition Marker_ADD : Z := 0.

(** [visualization_msgs::MarkerArray]: its [markers] vector. *)
Abbreviation MarkerArray := (list Marker).

(** The colour utilities the header calls and does not define: the default
    constructor of [Color], [rainbowColorMap] (voxblox/core/color.h), here
    on the [float] value of its argument expression, and [colorVoxbloxToMsg]
    (voxblox_ros/conversions.h). *)
Class ColorModel := {
  Color_default : Color;
  rainbowColorMap : spec_float -> Color;
  colorVoxbloxToMsg : Color -> ColorRGBA
}.

(** ** Fatal checks *)

(** A call either returns or dies in a fatal check ([CHECK_NOTNULL],
    [LOG(FATAL)]) and returns nothing. *)
Inductive outcome (A : Type) : Type :=
| Done (v : A)
| Fatal.
Arguments Done {A} v.
Arguments Fatal {A}.

#[global] Instance outcome_ret : MRet outcome := fun A v => Done v.

#[global] Instance outcome_bind : MBind outcome := fun A B k m =>
  match m with
  | Done v => k v
  | Fatal => Fatal
  end.

(** A pointer argument is [None] when null, [Some o] when it points to the
    object [o]. *)
Definition CHECK_NOTNULL {A : Type} (p : option A) : outcome A :=
  match p with
  | Some o => Done o
  | None => Fatal
  end.

(** The body of a range-based [for] whose iterations may die. *)
Fixpoint for_each {S A : Type} (body : S -> A -> outcome S) (s : S)
    (l : list A) : outcome S :=
  match l with
  | [] => Done s
  | i :: l' => s' ← body s i; for_each body s' l'
  end.

(** ** The layer accessors *)

Section LayerAccessors.
Context {VoxelType : Type}.

(** Modelled from the spec: [Layer::getAllAllocatedBlocks], the indices of
    the allocated blocks in the enumeration order of the map. *)
Definition getAllAllocatedBlocks (layer : Layer VoxelType) : list BlockIndex :=
  (map_to_list (block_map layer)).*1.

(** Modelled from the spec: [Layer::getBlockByIndex], which dies on an
    index that is not allocated. *)
Definition getBlockByIndex (layer : Layer VoxelType) (index : BlockIndex)
    : outcome (Block VoxelType) :=
  match block_map layer !! index with
  | Some block => Done block
  | None => Fatal
  end.
End LayerAccessors.

(** An out-parameter of a predicate: the predicate sees the value the
    pointer holds and answers with its verdict and, when it stores through
    the pointer, the value stored last. *)
Definition stored {A : Type} (held : A) (write : option A) : A :=
  match write with
  | Some v => v
  | None => held
  end.

(** ** The predicate types *)

(** [ShouldVisualizeVoxelColorFunctionType]: voxel, coordinate and the
    [Color*] out-parameter. *)
Definition ShouldVisualizeVoxelColorFunctionType (VoxelType : Type) : Type :=
  VoxelType -> Point -> Color -> bool * option Color.

(** [ShouldVisualizeVoxelIntensityFunctionType]: voxel, coordinate and the
    [double*] out-parameter. *)
Definition ShouldVisualizeVoxelIntensityFunctionType (VoxelType : Type) : Type :=
  VoxelType -> Point -> spec_float -> bool * option spec_float.

(** [ShouldVisualizeVoxelFunctionType]: voxel and coordinate only. *)
Definition ShouldVisualizeVoxelFunctionType (VoxelType : Type) : Type :=
  VoxelType -> Point -> bool.

(** [clear()] of a [pcl::PointCloud]. *)
Definition clear {A : Type} (pointcloud : list A) : list A := [].

(** [push_back]. *)
Definition push_back {A : Type} (v : list A) (e : A) : list A := v ++ [e].

(** ** The traversals *)

(** The cached [vps * vps * vps]. *)
Definition num_voxels_per_block {VoxelType : Type} (layer : Layer VoxelType) : Z :=
  let vps := voxels_per_side layer in
  size_t_mul (size_t_mul vps vps) vps.

(** The overload of [createColorPointcloudFromLayer] on
    [pcl::PointCloud<pcl::PointXYZRGB>]. *)
Module XYZRGB.
Section Traversal.
Context `{ColorModel} {VoxelType : Type}.

(** One iteration of the loop over the linear indices of a block; the
    state is the temporary [color] and the pointcloud. *)
Definition visit_voxel
    (vis_function : ShouldVisualizeVoxelColorFunctionType VoxelType)
    (block : Block VoxelType) (st : Color * list PointXYZRGB)
    (linear_index : Z) : Color * list PointXYZRGB :=
  let '(color, pointcloud) := st in
  let coord := computeCoordinatesFromLinearIndex block linear_index in
  let '(pass, write) :=
    vis_function (getVoxelByLinearIndex block linear_index) coord color in
  let color := stored color write in
  if pass then
    let point := {| rgb_x := x coord; rgb_y := y coord; rgb_z := z coord;
                    rgb_r := r color; rgb_g := g color; rgb_b := b color |} in
    (color, push_back pointcloud point)
  else (color, pointcloud).

(** One iteration of the loop over the allocated blocks. *)
Definition visit_block (layer : Layer VoxelType)
    (vis_function : ShouldVisualizeVoxelColorFunctionType VoxelType)
    (num_voxels_per_block : Z) (st : Color * list PointXYZRGB)
    (index : BlockIndex) : outcome (Color * list PointXYZRGB) :=
  block ← getBlockByIndex layer index;
  mret (foldl (visit_voxel vis_function block) st
          (seqZ 0 num_voxels_per_block)).

Definition createColorPointcloudFromLayer (layer : Layer VoxelType)
    (vis_function : ShouldVisualizeVoxelColorFunctionType VoxelType)
    (pointcloud : option (list PointXYZRGB)) : outcome (list PointXYZRGB) :=
  pointcloud ← CHECK_NOTNULL pointcloud;
  let pointcloud := clear pointcloud in
  let blocks := getAllAllocatedBlocks layer in
  let num_voxels_per_block := num_voxels_per_block layer in
  let color := Color_default in
  '(_, pointcloud) ← for_each (visit_block layer vis_function num_voxels_per_block)
                       (color, pointcloud) blocks;
  mret pointcloud.
End Traversal.
End XYZRGB.

(** The overload of [createColorPointcloudFromLayer] on
    [pcl::PointCloud<pcl::PointXYZI>]. *)
Module XYZI.
Section Traversal.
Context {VoxelType : Type}.

(** One iteration of the loop over the linear indices of a block; the
    state is the temporary [intensity], a [double], and the pointcloud. *)
Definition visit_voxel
    (vis_function : ShouldVisualizeVoxelIntensityFunctionType VoxelType)
    (block : Block VoxelType) (st : spec_float * list PointXYZI)
    (linear_index : Z) : spec_float * list PointXYZI :=
  let '(intensity, pointcloud) := st in
  let coord := computeCoordinatesFromLinearIndex block linear_index in
  let '(pass, write) :=
    vis_function (getVoxelByLinearIndex block linear_index) coord intensity in
  let intensity := stored intensity write in
  if pass then
    let point := {| i_x := x coord; i_y := y coord; i_z := z coord;
                    i_intensity := double_to_float intensity |} in
    (intensity, push_back pointcloud point)
  else (intensity, pointcloud).

(** One iteration of the loop over the allocated blocks. *)
Definition visit_block (layer : Layer VoxelType)
    (vis_function : ShouldVisualizeVoxelIntensityFunctionType VoxelType)
    (num_voxels_per_block : Z) (st : spec_float * list PointXYZI)
    (index : BlockIndex) : outcome (spec_float * list PointXYZI) :=
  block ← getBlockByIndex layer index;
  mret (foldl (visit_voxel vis_function block) st
          (seqZ 0 num_voxels_per_block)).

Definition createColorPointcloudFromLayer (layer : Layer VoxelType)
    (vis_function : ShouldVisualizeVoxelIntensityFunctionType VoxelType)
    (pointcloud : option (list PointXYZI)) : outcome (list PointXYZI) :=
  pointcloud ← CHECK_NOTNULL pointcloud;
  let pointcloud := clear pointcloud in
  let blocks := getAllAllocatedBlocks layer in
  let num_voxels_per_block := num_voxels_per_block layer in
  let intensity := S754_zero false in
  '(_, pointcloud) ← for_each (visit_block layer vis_function num_voxels_per_block)
                       (intensity, pointcloud) blocks;
  mret pointcloud.
End Traversal.
End XYZI.

(** [block_marker.points.push_back] and [block_marker.colors.push_back]. *)
Definition points_push_back (m : Marker) (p : GeoPoint) : Marker :=
  {| header_frame_id := header_frame_id m; ns := ns m; id := id m;
     type := type m; action := action m;
     scale_x := scale_x m; scale_y := scale_y m; scale_z := scale_z m;
     points := push_back (points m) p; colors := colors m |}.

Definition colors_push_back (m : Marker) (c : ColorRGBA) : Marker :=
  {| header_frame_id := header_frame_id m; ns := ns m; id := id m;
     type := type m; action := action m;
     scale_x := scale_x m; scale_y := scale_y m; scale_z := scale_z m;
     points := points m; colors := push_back (colors m) c |}.

Section Occupancy.
Context `{ColorModel} {VoxelType : Type}.

(** One iteration of the loop over the linear indices of a block; the
    state is [block_marker]. *)
Definition occupancy_visit_voxel
    (vis_function : ShouldVisualizeVoxelFunctionType VoxelType)
    (block : Block VoxelType) (block_marker : Marker) (linear_index : Z)
    : Marker :=
  let coord := computeCoordinatesFromLinearIndex block linear_index in
  if vis_function (getVoxelByLinearIndex block linear_index) coord then
    let cube_center := {| geo_x := float_to_double (x coord);
                          geo_y := float_to_double (y coord);
                          geo_z := float_to_double (z coord) |} in
    let block_marker := points_push_back block_marker cube_center in
    let color_msg :=
      colorVoxbloxToMsg
        (rainbowColorMap
           (F32.mul (F32.sub (z coord) (F32.of_Z 5)) (F32.of_Z 10))) in
    colors_push_back block_marker color_msg
  else block_marker.

(** One iteration of the loop over the allocated blocks. *)
Definition occupancy_visit_block (layer : Layer VoxelType)
    (vis_function : ShouldVisualizeVoxelFunctionType VoxelType)
    (num_voxels_per_block : Z) (block_marker : Marker) (index : BlockIndex)
    : outcome Marker :=
  block ← getBlockByIndex layer index;
  mret (foldl (occupancy_visit_voxel vis_function block) block_marker
          (seqZ 0 num_voxels_per_block)).

Definition createOccupancyBlocksFromLayer (layer : Layer VoxelType)
    (vis_function : ShouldVisualizeVoxelFunctionType VoxelType)
    (frame_id : string) (marker_array : option MarkerArray)
    : outcome MarkerArray :=
  markers ← CHECK_NOTNULL marker_array;
  let num_voxels_per_block := num_voxels_per_block layer in
  let voxel_size := voxel_size layer in
  let block_marker :=
    {| header_frame_id := frame_id; ns := "occupied_voxels"; id := 0;
       type := Marker_CUBE_LIST; action := Marker_ADD;
       scale_x := float_to_double voxel_size;
       scale_y := float_to_double voxel_size;
       scale_z := float_to_double voxel_size;
       points := []; colors := [] |} in
  let blocks := getAllAllocatedBlocks layer in
  block_marker ← for_each
                   (occupancy_visit_block layer vis_function num_voxels_per_block)
                   block_marker blocks;
  mret (push_back markers block_marker).
End Occupancy.

(** ** The sample predicates *)

Definition visualizeNearSurfaceTsdfVoxels (voxel : TsdfVoxel) (coord : Point)
    (surface_distance : spec_float) (color : Color) : bool * option Color :=
  if F32.gtb (tsdf_weight voxel) (F32.of_Z 0)
     && F64.ltb (float_to_double (F32.abs (tsdf_distance voxel))) surface_distance
  then (true, Some (tsdf_color voxel))
  else (false, None).

Definition visualizeDistanceIntensityTsdfVoxels (voxel : TsdfVoxel)
    (coord : Point) (intensity : spec_float) : bool * option spec_float :=
  if F64.gtb (float_to_double (tsdf_weight voxel)) lit_1e_3
  then (true, Some (float_to_double (tsdf_distance voxel)))
  else (false, None).

Definition visualizeDistanceIntensityEsdfVoxels (voxel : EsdfVoxel)
    (coord : Point) (intensity : spec_float) : bool * option spec_float :=
  if esdf_observed voxel
  then (true, Some (float_to_double (esdf_distance voxel)))
  else (false, None).

Definition visualizeOccupiedTsdfVoxels (voxel : TsdfVoxel) (coord : Point) : bool :=
  if F64.gtb (float_to_double (tsdf_weight voxel)) lit_1e_3
     && F32.leb (tsdf_distance voxel) (F32.of_Z 0)
  then true
  else false.

(** ** The functions for TSDF and ESDF layers *)

Definition createSurfacePointcloudFromTsdfLayer `{ColorModel}
    (layer : Layer TsdfVoxel) (surface_distance : spec_float)
    (pointcloud : option (list PointXYZRGB)) : outcome (list PointXYZRGB) :=
  XYZRGB.createColorPointcloudFromLayer layer
    (fun voxel coord color =>
       visualizeNearSurfaceTsdfVoxels voxel coord surface_distance color)
    pointcloud.

Definition createDistancePointcloudFromTsdfLayer (layer : Layer TsdfVoxel)
    (pointcloud : option (list PointXYZI)) : outcome (list PointXYZI) :=
  XYZI.createColorPointcloudFromLayer layer
    visualizeDistanceIntensityTsdfVoxels pointcloud.

Definition createDistancePointcloudFromEsdfLayer (layer : Layer EsdfVoxel)
    (pointcloud : option (list PointXYZI)) : outcome (list PointXYZI) :=
  XYZI.createColorPointcloudFromLayer layer
    visualizeDistanceIntensityEsdfVoxels pointcloud.

Definition createOccupancyBlocksFromTsdfLayer `{ColorModel}
    (layer : Layer TsdfVoxel) (frame_id : string)
    (marker_array : option MarkerArray) : outcome MarkerArray :=
  createOccupancyBlocksFromLayer layer visualizeOccupiedTsdfVoxels frame_id
    marker_array.

(** ** The traversal read as a sequence of predicate calls *)

(** The voxels of a layer in the order of the traversal: the blocks in the
    order of [getAllAllocatedBlocks], and in a block the linear indices
    from [0] upwards. *)
Definition layer_voxels {VoxelType : Type} (layer : Layer VoxelType)
    : list (BlockIndex * Block VoxelType * Z) :=
  '(index, block) ← map_to_list (block_map layer);
  (fun linear_index => (index, block, linear_index))
    <$> seqZ 0 (num_voxels_per_block layer).

(** The positions, block index and linear index, of the same voxels. *)
Definition layer_positions {VoxelType : Type} (layer : Layer VoxelType)
    : list (BlockIndex * Z) :=
  index ← getAllAllocatedBlocks layer;
  (fun linear_index => (index, linear_index))
    <$> seqZ 0 (num_voxels_per_block layer).

(** One call of a predicate with an out-parameter: where it was made, its
    verdict, what it stored through the pointer, and the value the pointer
    holds after the call. *)
Record call (S : Type) := {
  call_index : BlockIndex;
  call_linear_index : Z;
  call_coord : Point;
  call_pass : bool;
  call_write : option S;
  call_held : S
}.
Arguments call_index {S} _.
Arguments call_linear_index {S} _.
Arguments call_coord {S} _.
Arguments call_pass {S} _.
Arguments call_write {S} _.
Arguments call_held {S} _.

(** The calls made on a list of voxels, from the value [held] that the
    temporary has before the first of them. *)
Fixpoint calls {VoxelType S : Type}
    (vis_function : VoxelType -> Point -> S -> bool * option S) (held : S)
    (voxels : list (BlockIndex * Block VoxelType * Z)) : list (call S) :=
  match voxels with
  | [] => []
  | (index, block, linear_index) :: voxels' =>
      let coord := computeCoordinatesFromLinearIndex block linear_index in
      let '(pass, write) :=
        vis_function (getVoxelByLinearIndex block linear_index) coord held in
      {| call_index := index; call_linear_index := linear_index;
         call_coord := coord; call_pass := pass; call_write := write;
         call_held := stored held write |}
      :: calls vis_function (stored held write) voxels'
  end.

Definition call_position {S : Type} (c : call S) : BlockIndex * Z :=
  (call_index c, call_linear_index c).

(** A call record stands for a call the traversal made: on the voxel at a
    linear index of an allocated block, with the coordinate of that voxel
    and some value [held] in the temporary, answered by the verdict and the
    store of the record. *)
Definition made_on {VoxelType S : Type} (layer : Layer VoxelType)
    (vis_function : VoxelType -> Point -> S -> bool * option S)
    (c : call S) : Prop :=
  exists (block : Block VoxelType) (held : S),
    block_map layer !! call_index c = Some block
    /\ 0 <= call_linear_index c < num_voxels_per_block layer
    /\ call_coord c
       = computeCoordinatesFromLinearIndex block (call_linear_index c)
    /\ vis_function (getVoxelByLinearIndex block (call_linear_index c))
         (call_coord c) held
       = (call_pass c, call_write c)
    /\ call_held c = stored held (call_write c).

(** A visited voxel is a voxel of the layer: a linear index of an allocated
    block. *)
Definition voxel_of {VoxelType : Type} (layer : Layer VoxelType)
    (v : BlockIndex * Block VoxelType * Z) : Prop :=
  block_map layer !! v.1.1 = Some v.1.2
  /\ 0 <= v.2 < num_voxels_per_block layer.

(** The calls that passed. *)
Definition passed {S : Type} (cs : list (call S)) : list (call S) :=
  filter (fun c => call_pass c = true) cs.

(** The value stored last by a list of calls, [init] when none stored. *)
Definition last_stored {S : Type} (init : S) (cs : list (call S)) : S :=
  default init (last (omap call_write cs)).

(** The point pushed for a call that passed, in each pointcloud mode. *)
Definition colored_point (c : call Color) : PointXYZRGB :=
  {| rgb_x := x (call_coord c); rgb_y := y (call_coord c);
     rgb_z := z (call_coord c);
     rgb_r := r (call_held c); rgb_g := g (call_held c);
     rgb_b := b (call_held c) |}.

Definition intensity_point (c : call spec_float) : PointXYZI :=
  {| i_x := x (call_coord c); i_y := y (call_coord c);
     i_z := z (call_coord c);
     i_intensity := double_to_float (call_held c) |}.

(** The voxels an occupancy predicate accepts, and the cube centre and the
    cube colour pushed for each. *)
Definition occupied_voxels {VoxelType : Type}
    (vis_function : ShouldVisualizeVoxelFunctionType VoxelType)
    (voxels : list (BlockIndex * Block VoxelType * Z))
    : list (BlockIndex * Block VoxelType * Z) :=
  filter (fun v => vis_function (getVoxelByLinearIndex v.1.2 v.2)
                     (computeCoordinatesFromLinearIndex v.1.2 v.2) = true)
    voxels.

Definition cube_center {VoxelType : Type}
    (v : BlockIndex * Block VoxelType * Z) : GeoPoint :=
  let coord := computeCoordinatesFromLinearIndex v.1.2 v.2 in
  {| geo_x := float_to_double (x coord); geo_y := float_to_double (y coord);
     geo_z := float_to_double (z coord) |}.

Definition cube_color `{ColorModel} {VoxelType : Type}
    (v : BlockIndex * Block VoxelType * Z) : ColorRGBA :=
  let coord := computeCoordinatesFromLinearIndex v.1.2 v.2 in
  colorVoxbloxToMsg
    (rainbowColorMap (F32.mul (F32.sub (z coord) (F32.of_Z 5)) (F32.of_Z 10))).

(** The marker [createOccupancyBlocksFromLayer] builds for a layer. *)
Definition occupancy_marker `{ColorModel} {VoxelType : Type}
    (layer : Layer VoxelType)
    (vis_function : ShouldVisualizeVoxelFunctionType VoxelType)
    (frame_id : string) : Marker :=
  let occupied := occupied_voxels vis_function (layer_voxels layer) in
  {| header_frame_id := frame_id; ns := "occupied_voxels"; id := 0;
     type := Marker_CUBE_LIST; action := Marker_ADD;
     scale_x := float_to_double (voxel_size layer);
     scale_y := float_to_double (voxel_size layer);
     scale_z := float_to_double (voxel_size layer);
     points := cube_center <$> occupied;
     colors := cube_color <$> occupied |}.

(** [n] calls of [createOccupancyBlocksFromLayer] in a row on one array. *)
Fixpoint repeated_calls `{ColorModel} {VoxelType : Type} (n : nat)
    (layer : Layer VoxelType)
    (vis_function : ShouldVisualizeVoxelFunctionType VoxelType)
    (frame_id : string) (markers : MarkerArray) : outcome MarkerArray :=
  match n with
  | O => Done markers
  | S n' =>
      markers' ← createOccupancyBlocksFromLayer layer vis_function frame_id
                   (Some markers);
      repeated_calls n' layer vis_function frame_id markers'
  end.

(** A layer whose blocks hold [voxels_per_side ^ 3] voxels each: the side is
    a [size_t], and where a block is allocated its voxel count is one too. *)
Definition well_formed {VoxelType : Type} (layer : Layer VoxelType) : Prop :=
  block_map layer <> ∅ ->
  0 <= voxels_per_side layer /\ voxels_per_side layer ^ 3 < size_t_modulus.

(** ** A layer to run the traversals on *)

(** A colour model to evaluate with; the properties below hold for every
    colour model. *)
Definition sample_color_model : ColorModel :=
  {| Color_default := {| r := 0; g := 0; b := 0; a := 0 |};
     rainbowColorMap := fun _ => {| r := 255; g := 0; b := 0; a := 255 |};
     colorVoxbloxToMsg := fun c =>
       {| rgba_r := F32.div (F32.of_Z (r c)) (F32.of_Z 255);
          rgba_g := F32.div (F32.of_Z (g c)) (F32.of_Z 255);
          rgba_b := F32.div (F32.of_Z (b c)) (F32.of_Z 255);
          rgba_a := F32.div (F32.of_Z (a c)) (F32.of_Z 255) |} |}.

(** The centre [k + 0.5] of the [k]-th voxel along an axis, for a block at
    the origin and voxels of size [1.0]. *)
Definition voxel_center (k : Z) : spec_float :=
  F32.div (F32.of_Z (2 * k + 1)) (F32.of_Z 2).

Definition sample_coordinates (linear_index : Z) : Point :=
  {| x := voxel_center (linear_index mod 2);
     y := voxel_center ((linear_index / 2) mod 2);
     z := voxel_center (linear_index / 4) |}.

Definition sample_color : Color := {| r := 200; g := 100; b := 50; a := 255 |}.

(** Linear index [0] holds weight [1] and distance [0.05], the other voxels
    weight [0]. *)
Definition sample_voxel (linear_index : Z) : TsdfVoxel :=
  if linear_index =? 0 then
    {| tsdf_distance := F32.div (F32.of_Z 1) (F32.of_Z 20);
       tsdf_weight := F32.of_Z 1;
       tsdf_color := sample_color |}
  else
    {| tsdf_distance := F32.of_Z 0;
       tsdf_weight := F32.of_Z 0;
       tsdf_color := {| r := 0; g := 0; b := 0; a := 0 |} |}.

Definition sample_block : Block TsdfVoxel :=
  {| getVoxelByLinearIndex := sample_voxel;
     computeCoordinatesFromLinearIndex := sample_coordinates |}.

(** One block at index [(0, 0, 0)], two voxels per side, voxel size [1.0]. *)
Definition sample_layer : Layer TsdfVoxel :=
  {| voxel_size := F32.of_Z 1;
     voxels_per_side := 2;
     block_map := {[ (0, 0, 0) := sample_block ]} |}.

(** A layer without blocks. *)
Definition empty_layer : Layer TsdfVoxel :=
  {| voxel_size := F32.of_Z 1; voxels_per_side := 2; block_map := ∅ |}.

(** A marker left in an array by an earlier publisher. *)
Definition earlier_marker : Marker :=
  {| header_frame_id := "world"; ns := "mesh"; id := 7;
     type := Marker_CUBE_LIST; action := Marker_ADD;
     scale_x := F64.of_Z 1; scale_y := F64.of_Z 1; scale_z := F64.of_Z 1;
     points := []; colors := [] |}.

(** An intensity predicate that stores [5.0] and fails on a voxel of
    positive weight, and passes without storing on the others. *)
Definition store_on_fail : ShouldVisualizeVoxelIntensityFunctionType TsdfVoxel :=
  fun voxel coord intensity =>
    if F32.gtb (tsdf_weight voxel) (F32.of_Z 0)
    then (false, Some (F64.of_Z 5))
    else (true, None).

(** ** The bindings read voxel by voxel *)

(** The voxel and the coordinate at a visited position. *)
Definition voxel_at {VoxelType : Type} (v : BlockIndex * Block VoxelType * Z)
    : VoxelType :=
  getVoxelByLinearIndex v.1.2 v.2.

Definition coord_at {VoxelType : Type} (v : BlockIndex * Block VoxelType * Z)
    : Point :=
  computeCoordinatesFromLinearIndex v.1.2 v.2.





(** A [pcl::PointXYZRGB] and a [pcl::PointXYZI] from a coordinate and the
    value of the temporary. *)
Definition rgb_point (coord : Point) (color : Color) : PointXYZRGB :=
  {| rgb_x := x coord; rgb_y := y coord; rgb_z := z coord;
     rgb_r := r color; rgb_g := g color; rgb_b := b color |}.

Definition xyzi_point (coord : Point) (intensity : spec_float) : PointXYZI :=
  {| i_x := x coord; i_y := y coord; i_z := z coord;
     i_intensity := double_to_float intensity |}.

(** The position of a [pcl::PointXYZI] as a [geometry_msgs::Point]. *)
Definition xyzi_position (p : PointXYZI) : GeoPoint :=
  {| geo_x := float_to_double (i_x p); geo_y := float_to_double (i_y p);
     geo_z := float_to_double (i_z p) |}.

(** The conditions of the sample predicates on a TSDF voxel. *)
Definition tsdf_near_surface (surface_distance : spec_float)
    (voxel : TsdfVoxel) : bool :=
  F32.gtb (tsdf_weight voxel) (F32.of_Z 0)
  && F64.ltb (float_to_double (F32.abs (tsdf_distance voxel))) surface_distance.

Definition tsdf_confident (voxel : TsdfVoxel) : bool :=
  F64.gtb (float_to_double (tsdf_weight voxel)) lit_1e_3.

Definition tsdf_occupied (voxel : TsdfVoxel) : bool :=
  tsdf_confident voxel && F32.leb (tsdf_distance voxel) (F32.of_Z 0).

(** A value that is no positive number: a NaN, a zero, or a value with the
    sign bit set. *)
Definition not_positive (x : spec_float) : bool :=
  match x with
  | S754_nan | S754_zero _ => true
  | S754_infinity s | S754_finite s _ _ => s
  end.

(** The voxels of the allocated blocks hold [float]s (numbers, infinities
    or NaN in the canonical form of binary32) as distances. *)
Definition tsdf_distances_valid (layer : Layer TsdfVoxel) : Prop :=
  forall index block linear_index,
    block_map layer !! index = Some block ->
    valid_binary F32.prec F32.emax
      (tsdf_distance (getVoxelByLinearIndex block linear_index)) = true.

Definition esdf_distances_valid (layer : Layer EsdfVoxel) : Prop :=
  forall index block linear_index,
    block_map layer !! index = Some block ->
    valid_binary F32.prec F32.emax
      (esdf_distance (getVoxelByLinearIndex block linear_index)) = true.

(** No voxel of an allocated block has a positive weight. *)
Definition tsdf_unobserved (layer : Layer TsdfVoxel) : Prop :=
  forall index block linear_index,
    block_map layer !! index = Some block ->
    not_positive (tsdf_weight (getVoxelByLinearIndex block linear_index))
    = true.

(** The voxels of one block in the order of the inner loop. *)
Definition block_voxels {VoxelType : Type} (n : Z) (index : BlockIndex)
    (block : Block VoxelType) : list (BlockIndex * Block VoxelType * Z) :=
  (fun linear_index => (index, block, linear_index)) <$> seqZ 0 n.

(** ** More layers to run the traversals on *)

(** An ESDF block: linear index [0] is observed at distance [3.7], the
    other voxels are not observed. *)
Definition sample_esdf_voxel (linear_index : Z) : EsdfVoxel :=
  if linear_index =? 0 then
    {| esdf_distance := F32.div (F32.of_Z 37) (F32.of_Z 10);
       esdf_observed := true |}
  else
    {| esdf_distance := F32.of_Z 0; esdf_observed := false |}.

Definition sample_esdf_layer : Layer EsdfVoxel :=
  {| voxel_size := F32.of_Z 1;
     voxels_per_side := 2;
     block_map :=
       {[ (0, 0, 0) :=
            {| getVoxelByLinearIndex := sample_esdf_voxel;
               computeCoordinatesFromLinearIndex := sample_coordinates |} ]} |}.

(** A block of voxels inside the surface: every voxel has weight [1] and
    distance [-0.5]. *)
Definition inside_block : Block TsdfVoxel :=
  {| getVoxelByLinearIndex := fun _ =>
       {| tsdf_distance := SFopp (F32.div (F32.of_Z 1) (F32.of_Z 2));
          tsdf_weight := F32.of_Z 1;
          tsdf_color := sample_color |};
     computeCoordinatesFromLinearIndex := sample_coordinates |}.

(** The sample layer with [inside_block] allocated at index [(1, 0, 0)]. *)
Definition grown_layer : Layer TsdfVoxel :=
  {| voxel_size := F32.of_Z 1;
     voxels_per_side := 2;
     block_map := <[ (1, 0, 0) := inside_block ]> (block_map sample_layer) |}.

(** A layer of [inside_block] whose side, [2 ^ 22], has a cube of [2 ^ 66]. *)
Definition wrapping_layer : Layer TsdfVoxel :=
  {| voxel_size := F32.of_Z 1;
     voxels_per_side := 2 ^ 22;
     block_map := {[ (0, 0, 0) := inside_block ]} |}.

(** A layer of one block whose voxels all have weight [0]. *)
Definition unobserved_layer : Layer TsdfVoxel :=
  {| voxel_size := F32.of_Z 1;
     voxels_per_side := 2;
     block_map :=
       {[ (0, 0, 0) :=
            {| getVoxelByLinearIndex := fun _ => sample_voxel 1;
               computeCoordinatesFromLinearIndex := sample_coordinates |} ]} |}.

(** * Properties *)

(** ** IEEE values as numbers *)

Lemma digits2_pos_bounds (m : positive) :
  2 ^ (Z.pos (digits2_pos m) - 1) <= Z.pos m < 2 ^ Z.pos (digits2_pos m).
Proof.
  induction m as [m IH|m IH|]; cbn [digits2_pos].
  - rewrite Pos2Z.inj_succ, Z.pow_succ_r by lia.
    replace (Z.succ (Z.pos (digits2_pos m)) - 1)
      with (Z.succ (Z.pos (digits2_pos m) - 1)) by lia.
    rewrite Z.pow_succ_r by lia. lia.
  - rewrite Pos2Z.inj_succ, Z.pow_succ_r by lia.
    replace (Z.succ (Z.pos (digits2_pos m)) - 1)
      with (Z.succ (Z.pos (digits2_pos m) - 1)) by lia.
    rewrite Z.pow_succ_r by lia. lia.
  - cbn. lia.
Qed.

Lemma digits2_pos_iter_xO (m d : positive) :
  Z.pos (digits2_pos (Pos.iter xO m d)) = Z.pos (digits2_pos m) + Z.pos d
  /\ Z.pos (Pos.iter xO m d) = Z.pos m * 2 ^ Z.pos d.
Proof.
  induction d as [|d IH] using Pos.peano_ind.
  - cbn [Pos.iter digits2_pos]. split; [lia|]. rewrite Z.pow_1_r. lia.
  - rewrite Pos.iter_succ. cbn [digits2_pos].
    rewrite !Pos2Z.inj_succ, Z.pow_succ_r by lia. lia.
Qed.

Section Formats.
Variables prec emax : Z.

Lemma binary_round_aux_canonical (s : bool) (m : positive) (e : Z) :
  bounded prec emax m e = true ->
  binary_round_aux prec emax s (Z.pos m) e loc_Exact = S754_finite s m e.
Proof.
  unfold bounded, canonical_mantissa. intros Hbounded.
  apply andb_true_iff in Hbounded as [Hcanonical Hmax].
  apply Z.eqb_eq in Hcanonical.
  unfold binary_round_aux, shr_fexp. cbn [Zdigits2].
  rewrite Hcanonical, Z.sub_diag. cbn [shr shr_record_of_loc shr_m
    loc_of_shr_record round_nearest_even Zdigits2].
  rewrite Hcanonical, Z.sub_diag. cbn [shr shr_record_of_loc shr_m].
  by rewrite Hmax.
Qed.

Lemma binary_round_shifted (s : bool) (m : positive) (e : Z) :
  let e' := fexp prec emax (Z.pos (digits2_pos m) + e) in
  e' < e -> e' <= emax - prec ->
  exists m' : positive,
    binary_round prec emax s m e = S754_finite s m' e'
    /\ bounded prec emax m' e' = true
    /\ Z.pos m' = Z.pos m * 2 ^ (e - e').
Proof.
  intros e' Hlt Hmax. unfold binary_round, shl_align. fold e'.
  destruct (e' - e) as [|d|d] eqn:Hd; try lia.
  destruct (digits2_pos_iter_xO m d) as [Hdigits Hvalue].
  assert (Z.pos d = e - e') as Hshift by lia.
  exists (Pos.iter xO m d).
  assert (bounded prec emax (Pos.iter xO m d) e' = true) as Hbounded.
  { unfold bounded, canonical_mantissa. apply andb_true_iff. split.
    - apply Z.eqb_eq. rewrite Hdigits.
      replace (Z.pos (digits2_pos m) + Z.pos d + e')
        with (Z.pos (digits2_pos m) + e) by lia.
      reflexivity.
    - by apply Z.leb_le. }
  split; [by apply binary_round_aux_canonical|].
  split; [done|]. by rewrite Hvalue, Hshift.
Qed.
End Formats.

Lemma float_to_double_finite (s : bool) (m : positive) (e : Z) :
  bounded F32.prec F32.emax m e = true ->
  exists (m' : positive) (e' : Z),
    float_to_double (S754_finite s m e) = S754_finite s m' e'
    /\ bounded F64.prec F64.emax m' e' = true
    /\ e' <= e /\ Z.pos m' = Z.pos m * 2 ^ (e - e').
Proof.
  intros Hbounded. unfold bounded, canonical_mantissa in Hbounded.
  apply andb_true_iff in Hbounded as [Hcanonical Hmax].
  apply Z.eqb_eq in Hcanonical. apply Z.leb_le in Hmax.
  unfold fexp, emin, F32.prec, F32.emax in *.
  destruct (binary_round_shifted F64.prec F64.emax s m e) as (m' & Hround & Hb & Hm).
  - unfold fexp, emin, F64.prec, F64.emax. lia.
  - unfold fexp, emin, F64.prec, F64.emax. lia.
  - exists m', (fexp F64.prec F64.emax (Z.pos (digits2_pos m) + e)).
    split.
    + unfold float_to_double, binary_normalize. by destruct s.
    + split; [done|]. split; [|done].
      unfold fexp, emin, F64.prec, F64.emax. lia.
Qed.

Section Compare.
Variables prec emax : Z.

Lemma canonical_lt (m1 m2 : positive) (e1 e2 : Z) :
  bounded prec emax m1 e1 = true -> bounded prec emax m2 e2 = true ->
  e1 < e2 -> Z.pos m1 < Z.pos m2 * 2 ^ (e2 - e1).
Proof.
  unfold bounded, canonical_mantissa, fexp. intros Hb1 Hb2 Hlt.
  apply andb_true_iff in Hb1 as [Hc1%Z.eqb_eq _].
  apply andb_true_iff in Hb2 as [Hc2%Z.eqb_eq _].
  pose proof (digits2_pos_bounds m1) as [_ Hm1].
  pose proof (digits2_pos_bounds m2) as [Hm2 _].
  assert (Z.pos (digits2_pos m1) <= Z.pos (digits2_pos m2)) as Hdigits by lia.
  pose proof (Z.pow_le_mono_r 2 _ _ ltac:(lia) Hdigits) as Hpow.
  assert (2 ^ Z.pos (digits2_pos m2) = 2 * 2 ^ (Z.pos (digits2_pos m2) - 1))
    as Hsucc.
  { rewrite <- Z.pow_succ_r by lia. f_equal. lia. }
  pose proof (Z.pow_le_mono_r 2 1 (e2 - e1) ltac:(lia) ltac:(lia)) as Hshift.
  rewrite Z.pow_1_r in Hshift. nia.
Qed.

Lemma canonical_compare (m1 m2 : positive) (e1 e2 : Z) :
  bounded prec emax m1 e1 = true -> bounded prec emax m2 e2 = true ->
  match e1 ?= e2 with
  | Lt => Lt
  | Gt => Gt
  | Eq => Pos.compare_cont Eq m1 m2
  end
  = (Z.pos m1 * 2 ^ (e1 - Z.min e1 e2) ?= Z.pos m2 * 2 ^ (e2 - Z.min e1 e2)).
Proof.
  intros Hb1 Hb2. destruct (Z.compare_spec e1 e2) as [Heq|Hlt|Hgt].
  - subst e2. rewrite Z.min_id, Z.sub_diag, !Z.mul_1_r. reflexivity.
  - rewrite Z.min_l, Z.sub_diag, Z.mul_1_r by lia. symmetry.
    apply Z.compare_lt_iff. by apply canonical_lt.
  - rewrite Z.min_r, Z.sub_diag, Z.mul_1_r by lia. symmetry.
    apply Z.compare_gt_iff. by apply canonical_lt.
Qed.

Lemma SFcompare_finite (s1 s2 : bool) (m1 m2 : positive) (e1 e2 : Z) :
  bounded prec emax m1 e1 = true -> bounded prec emax m2 e2 = true ->
  SFcompare (S754_finite s1 m1 e1) (S754_finite s2 m2 e2)
  = Some (cond_Zopp s1 (Z.pos m1) * 2 ^ (e1 - Z.min e1 e2)
          ?= cond_Zopp s2 (Z.pos m2) * 2 ^ (e2 - Z.min e1 e2)).
Proof.
  intros Hb1 Hb2. cbn [SFcompare]. f_equal.
  pose proof (Z.pow_pos_nonneg 2 (e1 - Z.min e1 e2) ltac:(lia) ltac:(lia)).
  pose proof (Z.pow_pos_nonneg 2 (e2 - Z.min e1 e2) ltac:(lia) ltac:(lia)).
  destruct s1, s2; cbn [cond_Zopp].
  - transitivity (CompOpp (Z.pos m1 * 2 ^ (e1 - Z.min e1 e2)
                             ?= Z.pos m2 * 2 ^ (e2 - Z.min e1 e2))).
    + rewrite <- (canonical_compare m1 m2 e1 e2 Hb1 Hb2).
      by destruct (e1 ?= e2).
    + rewrite <- Z.compare_antisym, !Z.mul_opp_l. symmetry.
      apply Z.compare_opp.
  - symmetry. apply Z.compare_lt_iff. lia.
  - symmetry. apply Z.compare_gt_iff. lia.
  - by apply canonical_compare.
Qed.
End Compare.

Lemma Qpower_2_pos (e : Z) : (0 < Qpower 2 e)%Q.
Proof. by apply Qpower_0_lt. Qed.

Lemma SF2Q_scaled (s : bool) (m : positive) (e k : Z) :
  k <= e ->
  (SF2Q (S754_finite s m e)
   == inject_Z (cond_Zopp s (Z.pos m) * 2 ^ (e - k)) * Qpower 2 k)%Q.
Proof.
  intros Hk. cbn [SF2Q].
  rewrite inject_Z_mult, (Zpower_Qpower 2 (e - k)) by lia.
  change (inject_Z 2) with 2%Q.
  rewrite <- Qmult_assoc, <- Qpower_plus by done.
  by replace (e - k + k) with e by lia.
Qed.

Lemma SF2Q_lt_finite (s1 s2 : bool) (m1 m2 : positive) (e1 e2 : Z) :
  (SF2Q (S754_finite s1 m1 e1) < SF2Q (S754_finite s2 m2 e2))%Q
  <-> cond_Zopp s1 (Z.pos m1) * 2 ^ (e1 - Z.min e1 e2)
      < cond_Zopp s2 (Z.pos m2) * 2 ^ (e2 - Z.min e1 e2).
Proof.
  rewrite (SF2Q_scaled s1 m1 e1 (Z.min e1 e2)) by lia.
  rewrite (SF2Q_scaled s2 m2 e2 (Z.min e1 e2)) by lia.
  rewrite Qmult_lt_r by apply Qpower_2_pos.
  by rewrite <- Zlt_Qlt.
Qed.

Lemma SF2Q_sign (s : bool) (m : positive) (e : Z) :
  if s then (SF2Q (S754_finite s m e) < 0)%Q
  else (0 < SF2Q (S754_finite s m e))%Q.
Proof.
  pose proof (Qpower_2_pos e) as Hpow. cbn [SF2Q].
  destruct s; cbn [cond_Zopp].
  - pose proof (proj2 (Qmult_lt_r (inject_Z (Z.neg m)) 0 _ Hpow) eq_refl)
      as Hlt.
    by rewrite Qmult_0_l in Hlt.
  - pose proof (proj2 (Qmult_lt_r 0 (inject_Z (Z.pos m)) _ Hpow) eq_refl)
      as Hlt.
    by rewrite Qmult_0_l in Hlt.
Qed.

(** On finite values of one format, [SFltb] and [SFleb] are the order of
    the numbers they stand for. *)
Lemma SFltb_SF2Q (prec emax : Z) (x y : spec_float) :
  valid_binary prec emax x = true -> valid_binary prec emax y = true ->
  is_finite x = true -> is_finite y = true ->
  SFltb x y = true <-> (SF2Q x < SF2Q y)%Q.
Proof.
  intros Hx Hy Hfx Hfy. unfold SFltb.
  destruct x as [sx| | |sx mx ex], y as [sy| | |sy my ey]; try discriminate.
  - cbn. split; [done|]. intros Hlt. by apply Qlt_irrefl in Hlt.
  - pose proof (SF2Q_sign sy my ey) as Hsign.
    cbn [SFcompare]. destruct sy.
    + split; [done|]. intros Hlt.
      change (SF2Q (S754_zero sx)) with 0%Q in Hlt.
      exfalso. exact (Qlt_irrefl 0 (Qlt_trans _ _ _ Hlt Hsign)).
    + done.
  - pose proof (SF2Q_sign sx mx ex) as Hsign.
    cbn [SFcompare]. destruct sx.
    + done.
    + split; [done|]. intros Hlt.
      change (SF2Q (S754_zero sy)) with 0%Q in Hlt.
      exfalso. exact (Qlt_irrefl 0 (Qlt_trans _ _ _ Hsign Hlt)).
  - rewrite (SFcompare_finite prec emax) by done.
    rewrite SF2Q_lt_finite.
    destruct (Z.compare_spec
                (cond_Zopp sx (Z.pos mx) * 2 ^ (ex - Z.min ex ey))
                (cond_Zopp sy (Z.pos my) * 2 ^ (ey - Z.min ex ey)));
      split; (done || lia).
Qed.

Lemma SF2Q_le_finite (s1 s2 : bool) (m1 m2 : positive) (e1 e2 : Z) :
  (SF2Q (S754_finite s1 m1 e1) <= SF2Q (S754_finite s2 m2 e2))%Q
  <-> cond_Zopp s1 (Z.pos m1) * 2 ^ (e1 - Z.min e1 e2)
      <= cond_Zopp s2 (Z.pos m2) * 2 ^ (e2 - Z.min e1 e2).
Proof.
  rewrite (SF2Q_scaled s1 m1 e1 (Z.min e1 e2)) by lia.
  rewrite (SF2Q_scaled s2 m2 e2 (Z.min e1 e2)) by lia.
  rewrite Qmult_le_r by apply Qpower_2_pos.
  by rewrite <- Zle_Qle.
Qed.

Lemma SFleb_SF2Q (prec emax : Z) (x y : spec_float) :
  valid_binary prec emax x = true -> valid_binary prec emax y = true ->
  is_finite x = true -> is_finite y = true ->
  SFleb x y = true <-> (SF2Q x <= SF2Q y)%Q.
Proof.
  intros Hx Hy Hfx Hfy. unfold SFleb.
  destruct x as [sx| | |sx mx ex], y as [sy| | |sy my ey]; try discriminate.
  - cbn. split; [|done]. intros _. apply Qle_refl.
  - pose proof (SF2Q_sign sy my ey) as Hsign.
    cbn [SFcompare]. change (SF2Q (S754_zero sx)) with 0%Q. destruct sy.
    + split; [done|]. intros Hle. exfalso.
      exact (Qlt_irrefl 0 (Qle_lt_trans _ _ _ Hle Hsign)).
    + split; [|done]. intros _. by apply Qlt_le_weak.
  - pose proof (SF2Q_sign sx mx ex) as Hsign.
    cbn [SFcompare]. change (SF2Q (S754_zero sy)) with 0%Q. destruct sx.
    + split; [|done]. intros _. by apply Qlt_le_weak.
    + split; [done|]. intros Hle. exfalso.
      exact (Qlt_irrefl 0 (Qlt_le_trans _ _ _ Hsign Hle)).
  - rewrite (SFcompare_finite prec emax) by done.
    rewrite SF2Q_le_finite.
    destruct (Z.compare_spec
                (cond_Zopp sx (Z.pos mx) * 2 ^ (ex - Z.min ex ey))
                (cond_Zopp sy (Z.pos my) * 2 ^ (ey - Z.min ex ey)));
      split; (done || lia).
Qed.

Lemma SFabs_SF2Q (x : spec_float) : (SF2Q (SFabs x) == Qabs (SF2Q x))%Q.
Proof.
  destruct x as [s| | |s m e]; try reflexivity.
  pose proof (SF2Q_sign false m e) as Hpos.
  pose proof (SF2Q_sign s m e) as Hsign.
  cbn [SFabs]. destruct s.
  - rewrite Qabs_neg by by apply Qlt_le_weak.
    cbn [SF2Q cond_Zopp]. rewrite inject_Z_opp.
    generalize (inject_Z (Z.pos m)) (Qpower 2 e). intros q p. ring.
  - rewrite Qabs_pos by by apply Qlt_le_weak. reflexivity.
Qed.

Lemma SFabs_valid (prec emax : Z) (x : spec_float) :
  valid_binary prec emax (SFabs x) = valid_binary prec emax x.
Proof. by destruct x. Qed.

Lemma SFabs_finite (x : spec_float) : is_finite (SFabs x) = is_finite x.
Proof. by destruct x. Qed.

(** The conversion of a finite [float] to [double] is exact. *)
Lemma float_to_double_exact (x : spec_float) :
  valid_binary F32.prec F32.emax x = true -> is_finite x = true ->
  valid_binary F64.prec F64.emax (float_to_double x) = true
  /\ is_finite (float_to_double x) = true
  /\ (SF2Q (float_to_double x) == SF2Q x)%Q.
Proof.
  intros Hvalid Hfinite. destruct x as [s| | |s m e]; try discriminate.
  - done.
  - destruct (float_to_double_finite s m e Hvalid)
      as (m' & e' & -> & Hbounded & He & Hm).
    split; [done|]. split; [done|].
    rewrite (SF2Q_scaled s m e e') by done. cbn [SF2Q].
    by destruct s; cbn [cond_Zopp]; rewrite ?Z.mul_opp_l, <- Hm.
Qed.

(** A number above [1/1000] with a negative exponent, in integers. *)
Lemma above_thousandth (m : positive) (e : Z) :
  e <= 0 ->
  (1 # 1000 < SF2Q (S754_finite false m e))%Q ->
  2 ^ (- e) < 1000 * Z.pos m.
Proof.
  intros He Habove.
  apply (Qmult_lt_r _ _ (Qpower 2 (- e)) (Qpower_2_pos _)) in Habove.
  cbn [SF2Q cond_Zopp] in Habove.
  rewrite <- Qmult_assoc, <- Qpower_plus in Habove by done.
  replace (e + - e) with 0 in Habove by lia.
  change (Qpower 2 (- e)) with (Qpower (inject_Z 2) (- e)) in Habove.
  rewrite <- Zpower_Qpower in Habove by lia.
  unfold Qlt in Habove. cbn in Habove. lia.
Qed.

(** No [float] lies above [1/1000] and at or below the [double] [1e-3]. *)
Lemma float_above_lit_1e_3 (x : spec_float) :
  valid_binary F32.prec F32.emax x = true -> is_finite x = true ->
  (SF2Q lit_1e_3 < SF2Q x)%Q <-> (1 # 1000 < SF2Q x)%Q.
Proof.
  intros Hvalid Hfinite. split.
  - intros Habove. apply (Qlt_trans _ (SF2Q lit_1e_3)); [by vm_compute|done].
  - destruct x as [s| | |s m e]; try discriminate Hfinite.
    { intros Habove. discriminate Habove. }
    intros Habove. destruct s.
    { exfalso. pose proof (SF2Q_sign true m e) as Hsign. cbn in Hsign.
      apply (Qlt_irrefl (1 # 1000)).
      eapply Qlt_trans; [exact Habove|]. eapply Qlt_trans; [exact Hsign|done]. }
    change lit_1e_3 with (S754_finite false 4611686018427388 (-62)).
    apply SF2Q_lt_finite. cbn [cond_Zopp].
    cbn [valid_binary] in Hvalid. unfold bounded, canonical_mantissa in Hvalid.
    apply andb_true_iff in Hvalid as [Hcanonical%Z.eqb_eq _].
    unfold fexp, emin, F32.prec, F32.emax in Hcanonical.
    pose proof (digits2_pos_bounds m) as [Hlow Hhigh].
    destruct (Z_lt_le_dec e (-33)) as [Hsmall|Hlarge].
    + exfalso. pose proof (above_thousandth m e ltac:(lia) Habove) as Hint.
      pose proof (Z.pow_le_mono_r 2 (Z.pos (digits2_pos m)) 24
                    ltac:(lia) ltac:(lia)) as Hm.
      pose proof (Z.pow_le_mono_r 2 34 (- e) ltac:(lia) ltac:(lia)) as He.
      change (2 ^ 24) with 16777216 in Hm.
      change (2 ^ 34) with 17179869184 in He. lia.
    + destruct (Z.eq_dec e (-33)) as [->|Hne].
      * pose proof (above_thousandth m (-33) ltac:(lia) Habove) as Hint.
        change (Z.min (-62) (-33)) with (-62).
        change (2 ^ (-62 - -62)) with 1. change (2 ^ (-33 - -62)) with 536870912.
        change (2 ^ (- -33)) with 8589934592 in Hint. lia.
      * assert (Z.pos (digits2_pos m) = 24) as Hdigits by lia.
        rewrite Hdigits in Hlow. change (2 ^ (24 - 1)) with 8388608 in Hlow.
        rewrite Z.min_l by lia. rewrite Z.sub_diag.
        pose proof (Z.pow_le_mono_r 2 30 (e - -62) ltac:(lia) ltac:(lia)) as He.
        change (2 ^ 30) with 1073741824 in He. change (2 ^ 0) with 1. nia.
Qed.

(** ** The loops over a layer *)

Section Loops.
Context {VoxelType S : Type}.
Implicit Types (layer : Layer VoxelType) (index : BlockIndex).

Lemma getBlockByIndex_allocated layer index block :
  block_map layer !! index = Some block ->
  getBlockByIndex layer index = Done block.
Proof. intros Hlookup. unfold getBlockByIndex. by rewrite Hlookup. Qed.

(** The nested loops make one pass over the voxels of the enumerated
    blocks, and no lookup of an enumerated block dies. *)
Lemma for_each_block_foldl layer (step : Block VoxelType -> S -> Z -> S)
    (n : Z) (kvs : list (BlockIndex * Block VoxelType)) (st : S) :
  (forall kv, kv ∈ kvs -> block_map layer !! kv.1 = Some kv.2) ->
  for_each
    (fun st index =>
       block ← getBlockByIndex layer index;
       mret (foldl (step block) st (seqZ 0 n)))
    st (kvs.*1)
  = Done (foldl (fun st v => step v.1.2 st v.2) st
            ('(index, block) ← kvs;
             (fun linear_index => (index, block, linear_index)) <$> seqZ 0 n)).
Proof.
  revert st. induction kvs as [|[index block] kvs IH]; intros st Hall.
  - reflexivity.
  - cbn [fmap list_fmap fst for_each].
    rewrite (getBlockByIndex_allocated layer index block).
    2:{ apply (Hall (index, block)). left. }
    cbn [mbind outcome_bind mret outcome_ret].
    rewrite IH.
    2:{ intros kv Hkv. apply Hall. by right. }
    f_equal. rewrite bind_cons, foldl_app. f_equal.
    by rewrite foldl_fmap.
Qed.

Lemma for_each_layer_foldl layer (step : Block VoxelType -> S -> Z -> S)
    (st : S) :
  for_each
    (fun st index =>
       block ← getBlockByIndex layer index;
       mret (foldl (step block) st (seqZ 0 (num_voxels_per_block layer))))
    st (getAllAllocatedBlocks layer)
  = Done (foldl (fun st v => step v.1.2 st v.2) st (layer_voxels layer)).
Proof.
  unfold getAllAllocatedBlocks, layer_voxels.
  apply for_each_block_foldl.
  intros [index block] Hin. by apply elem_of_map_to_list in Hin.
Qed.
End Loops.

(** ** Each traversal as its sequence of calls *)

Section Calls.
Context `{ColorModel} {VoxelType : Type}.
Implicit Types (layer : Layer VoxelType).

Lemma passed_cons {S : Type} (c : call S) (cs : list (call S)) :
  passed (c :: cs) = if call_pass c then c :: passed cs else passed cs.
Proof.
  unfold passed. rewrite filter_cons.
  destruct (call_pass c); by case_decide.
Qed.

Lemma color_voxels_calls
    (vis_function : ShouldVisualizeVoxelColorFunctionType VoxelType)
    (voxels : list (BlockIndex * Block VoxelType * Z))
    (color : Color) (pointcloud : list PointXYZRGB) :
  (foldl (fun st v => XYZRGB.visit_voxel vis_function v.1.2 st v.2)
     (color, pointcloud) voxels).2
  = pointcloud ++ (colored_point <$> passed (calls vis_function color voxels)).
Proof.
  revert color pointcloud.
  induction voxels as [|[[index block] i] voxels IH]; intros color pointcloud.
  - cbn. by rewrite app_nil_r.
  - cbn [foldl calls fst snd]. unfold XYZRGB.visit_voxel at 2.
    destruct (vis_function _ _ color) as [pass write].
    rewrite passed_cons. cbn [call_pass].
    destruct pass; rewrite IH; [|done].
    unfold push_back. by rewrite <- app_assoc.
Qed.

Lemma intensity_voxels_calls
    (vis_function : ShouldVisualizeVoxelIntensityFunctionType VoxelType)
    (voxels : list (BlockIndex * Block VoxelType * Z))
    (intensity : spec_float) (pointcloud : list PointXYZI) :
  (foldl (fun st v => XYZI.visit_voxel vis_function v.1.2 st v.2)
     (intensity, pointcloud) voxels).2
  = pointcloud
    ++ (intensity_point <$> passed (calls vis_function intensity voxels)).
Proof.
  revert intensity pointcloud.
  induction voxels as [|[[index block] i] voxels IH];
    intros intensity pointcloud.
  - cbn. by rewrite app_nil_r.
  - cbn [foldl calls fst snd]. unfold XYZI.visit_voxel at 2.
    destruct (vis_function _ _ intensity) as [pass write].
    rewrite passed_cons. cbn [call_pass].
    destruct pass; rewrite IH; [|done].
    unfold push_back. by rewrite <- app_assoc.
Qed.

Lemma occupancy_voxels_marker
    (vis_function : ShouldVisualizeVoxelFunctionType VoxelType)
    (voxels : list (BlockIndex * Block VoxelType * Z)) (m : Marker) :
  foldl (fun m v => occupancy_visit_voxel vis_function v.1.2 m v.2) m voxels
  = {| header_frame_id := header_frame_id m; ns := ns m; id := id m;
       type := type m; action := action m;
       scale_x := scale_x m; scale_y := scale_y m; scale_z := scale_z m;
       points := points m
                 ++ (cube_center <$> occupied_voxels vis_function voxels);
       colors := colors m
                 ++ (cube_color <$> occupied_voxels vis_function voxels) |}.
Proof.
  revert m. induction voxels as [|[[index block] i] voxels IH]; intros m.
  - cbn. rewrite !app_nil_r. by destruct m.
  - cbn [foldl]. rewrite IH. unfold occupied_voxels.
    rewrite filter_cons. unfold occupancy_visit_voxel. cbn [fst snd].
    destruct (vis_function _ _) eqn:Hvis.
    + rewrite decide_True by done. cbn. unfold push_back.
      by rewrite <- !app_assoc.
    + rewrite decide_False by (by intros ?). done.
Qed.

(** The colour traversal returns the coloured points of the calls that
    passed, in the order of the calls. *)
Lemma color_pointcloud_calls layer
    (vis_function : ShouldVisualizeVoxelColorFunctionType VoxelType)
    (pointcloud : list PointXYZRGB) :
  XYZRGB.createColorPointcloudFromLayer layer vis_function (Some pointcloud)
  = Done (colored_point
            <$> passed (calls vis_function Color_default (layer_voxels layer))).
Proof.
  unfold XYZRGB.createColorPointcloudFromLayer, XYZRGB.visit_block.
  cbn [CHECK_NOTNULL mbind outcome_bind].
  rewrite (for_each_layer_foldl layer
             (fun block st i => XYZRGB.visit_voxel vis_function block st i)).
  pose proof (color_voxels_calls vis_function (layer_voxels layer)
                Color_default (clear pointcloud)) as Hcalls.
  destruct (foldl _ _ _) as [color cloud]. cbn in Hcalls. by subst cloud.
Qed.

(** The intensity traversal returns the intensity points of the calls that
    passed, in the order of the calls. *)
Lemma intensity_pointcloud_calls layer
    (vis_function : ShouldVisualizeVoxelIntensityFunctionType VoxelType)
    (pointcloud : list PointXYZI) :
  XYZI.createColorPointcloudFromLayer layer vis_function (Some pointcloud)
  = Done (intensity_point
            <$> passed (calls vis_function (S754_zero false)
                          (layer_voxels layer))).
Proof.
  unfold XYZI.createColorPointcloudFromLayer, XYZI.visit_block.
  cbn [CHECK_NOTNULL mbind outcome_bind].
  rewrite (for_each_layer_foldl layer
             (fun block st i => XYZI.visit_voxel vis_function block st i)).
  pose proof (intensity_voxels_calls vis_function (layer_voxels layer)
                (S754_zero false) (clear pointcloud)) as Hcalls.
  destruct (foldl _ _ _) as [intensity cloud]. cbn in Hcalls. by subst cloud.
Qed.

(** The occupancy traversal pushes the marker of the layer behind the
    markers of the array. *)
Lemma occupancy_blocks_marker layer
    (vis_function : ShouldVisualizeVoxelFunctionType VoxelType)
    (frame_id : string) (markers : MarkerArray) :
  createOccupancyBlocksFromLayer layer vis_function frame_id (Some markers)
  = Done (markers ++ [occupancy_marker layer vis_function frame_id]).
Proof.
  unfold createOccupancyBlocksFromLayer, occupancy_visit_block.
  cbn [CHECK_NOTNULL mbind outcome_bind].
  rewrite (for_each_layer_foldl layer
             (fun block m i => occupancy_visit_voxel vis_function block m i)).
  by rewrite occupancy_voxels_marker.
Qed.
End Calls.

(** The scenario of one block with a single observed voxel near the
    surface: the surface pointcloud for the surface distance [0.1] is the
    one point at the coordinate of linear index [0], in the colour of that
    voxel. *)
Example surface_pointcloud_of_sample_layer :
  createSurfacePointcloudFromTsdfLayer (H := sample_color_model) sample_layer
    (F64.div (F64.of_Z 1) (F64.of_Z 10)) (Some [])
  = Done [{| rgb_x := x (sample_coordinates 0);
             rgb_y := y (sample_coordinates 0);
             rgb_z := z (sample_coordinates 0);
             rgb_r := r sample_color; rgb_g := g sample_color;
             rgb_b := b sample_color |}].
Proof. vm_compute. reflexivity. Qed.

(** ** Counting and ordering the calls *)

Section Counting.
Context {VoxelType S : Type}.
Implicit Types (layer : Layer VoxelType)
  (vis_function : VoxelType -> Point -> S -> bool * option S)
  (voxels : list (BlockIndex * Block VoxelType * Z)).

Lemma length_calls vis_function held voxels :
  length (calls vis_function held voxels) = length voxels.
Proof.
  revert held. induction voxels as [|[[index block] i] voxels IH]; intros held.
  - reflexivity.
  - cbn [calls]. destruct (vis_function _ _ held) as [pass write].
    cbn [length]. by rewrite IH.
Qed.

Lemma call_position_calls vis_function held voxels :
  call_position <$> calls vis_function held voxels
  = (fun v => (v.1.1, v.2)) <$> voxels.
Proof.
  revert held. induction voxels as [|[[index block] i] voxels IH]; intros held.
  - reflexivity.
  - cbn [calls]. destruct (vis_function _ _ held) as [pass write].
    rewrite !fmap_cons, IH. reflexivity.
Qed.

Lemma passed_calls_none vis_function held voxels :
  (forall voxel coord s, (vis_function voxel coord s).1 = false) ->
  passed (calls vis_function held voxels) = [].
Proof.
  intros Hfail. revert held.
  induction voxels as [|[[index block] i] voxels IH]; intros held.
  - reflexivity.
  - cbn [calls]. specialize (Hfail (getVoxelByLinearIndex block i)
      (computeCoordinatesFromLinearIndex block i) held).
    destruct (vis_function _ _ held) as [pass write]. cbn in Hfail. subst pass.
    rewrite passed_cons. cbn [call_pass]. apply IH.
Qed.

Lemma passed_calls_all vis_function held voxels :
  (forall voxel coord s, (vis_function voxel coord s).1 = true) ->
  passed (calls vis_function held voxels) = calls vis_function held voxels.
Proof.
  intros Hpass. revert held.
  induction voxels as [|[[index block] i] voxels IH]; intros held.
  - reflexivity.
  - cbn [calls]. specialize (Hpass (getVoxelByLinearIndex block i)
      (computeCoordinatesFromLinearIndex block i) held).
    destruct (vis_function _ _ held) as [pass write]. cbn in Hpass. subst pass.
    rewrite passed_cons. cbn [call_pass]. by rewrite IH.
Qed.

Lemma occupied_voxels_none
    (vis_function : ShouldVisualizeVoxelFunctionType VoxelType) voxels :
  (forall voxel coord, vis_function voxel coord = false) ->
  occupied_voxels vis_function voxels = [].
Proof.
  intros Hfail. unfold occupied_voxels.
  induction voxels as [|v voxels IH]; [done|].
  rewrite filter_cons, decide_False; [done|].
  rewrite Hfail. by intros ?.
Qed.

Lemma occupied_voxels_all
    (vis_function : ShouldVisualizeVoxelFunctionType VoxelType) voxels :
  (forall voxel coord, vis_function voxel coord = true) ->
  occupied_voxels vis_function voxels = voxels.
Proof.
  intros Hpass. unfold occupied_voxels.
  induction voxels as [|v voxels IH]; [done|].
  rewrite filter_cons, decide_True by apply Hpass. by rewrite IH.
Qed.

Lemma length_block_voxels (n : Z) (kvs : list (BlockIndex * Block VoxelType)) :
  length ('(index, block) ← kvs;
          (fun linear_index => (index, block, linear_index)) <$> seqZ 0 n)
  = (length kvs * Z.to_nat n)%nat.
Proof.
  induction kvs as [|[index block] kvs IH]; [done|].
  rewrite bind_cons, length_app, IH, length_fmap, length_seqZ. reflexivity.
Qed.

Lemma length_layer_voxels layer :
  length (layer_voxels layer)
  = (size (block_map layer) * Z.to_nat (num_voxels_per_block layer))%nat.
Proof.
  unfold layer_voxels. by rewrite length_block_voxels, length_map_to_list.
Qed.

Lemma num_voxels_per_block_cube layer :
  0 <= voxels_per_side layer ->
  voxels_per_side layer ^ 3 < size_t_modulus ->
  num_voxels_per_block layer = voxels_per_side layer ^ 3.
Proof.
  intros Hnonneg Hfits. unfold num_voxels_per_block, size_t_mul.
  rewrite Z.mul_mod_idemp_l by (unfold size_t_modulus, size_t_bits; lia).
  replace (voxels_per_side layer * voxels_per_side layer * voxels_per_side layer)
    with (voxels_per_side layer ^ 3) by ring.
  apply Z.mod_small. split; [|done]. by apply Z.pow_nonneg.
Qed.

(** The number of voxels the traversal visits, for a well-formed layer. *)
Lemma visited_voxel_count layer :
  well_formed layer ->
  Z.of_nat (length (layer_voxels layer))
  = Z.of_nat (size (block_map layer)) * voxels_per_side layer ^ 3.
Proof.
  intros Hwf. rewrite length_layer_voxels.
  destruct (decide (block_map layer = ∅)) as [Hempty|Hblocks].
  - rewrite Hempty, map_size_empty. reflexivity.
  - destruct (Hwf Hblocks) as [Hnonneg Hfits].
    rewrite num_voxels_per_block_cube by done.
    rewrite Nat2Z.inj_mul, Z2Nat.id; [done|]. by apply Z.pow_nonneg.
Qed.

Lemma layer_voxels_positions layer :
  (fun v => (v.1.1, v.2)) <$> layer_voxels layer = layer_positions layer.
Proof.
  unfold layer_voxels, layer_positions, getAllAllocatedBlocks.
  induction (map_to_list (block_map layer)) as [|[index block] kvs IH]; [done|].
  rewrite fmap_cons, !bind_cons, fmap_app, IH. f_equal.
  rewrite <- list_fmap_compose. reflexivity.
Qed.

(** No position is visited twice. *)
Lemma NoDup_layer_positions layer : NoDup (layer_positions layer).
Proof.
  unfold layer_positions. apply NoDup_bind.
  - intros index1 index2 [index i] _ _ Hin1 Hin2.
    apply list_elem_of_fmap in Hin1 as (? & [= <- _] & _).
    apply list_elem_of_fmap in Hin2 as (? & [= <- _] & _). reflexivity.
  - intros index _. apply NoDup_fmap; [|apply NoDup_seqZ].
    by intros ?? [= ->].
  - apply NoDup_fst_map_to_list.
Qed.
End Counting.

(** ** The accumulator before and after a call *)

(** C1, as amended.  The two pointcloud overloads clear the pointcloud they
    are given, so their result does not depend on the points it held before
    the call.  The occupancy traversal does not clear the marker array: it
    fills a marker of its own, the same whatever the array holds, and pushes
    it behind the markers already in the array. *)
Theorem accumulator_cleared_or_appended `{ColorModel} {VoxelType : Type}
    (layer : Layer VoxelType)
    (vis_color : ShouldVisualizeVoxelColorFunctionType VoxelType)
    (vis_intensity : ShouldVisualizeVoxelIntensityFunctionType VoxelType)
    (vis_occupied : ShouldVisualizeVoxelFunctionType VoxelType)
    (frame_id : string) :
  (forall before before' : list PointXYZRGB,
     XYZRGB.createColorPointcloudFromLayer layer vis_color (Some before)
     = XYZRGB.createColorPointcloudFromLayer layer vis_color (Some before'))
  /\ (forall before before' : list PointXYZI,
        XYZI.createColorPointcloudFromLayer layer vis_intensity (Some before)
        = XYZI.createColorPointcloudFromLayer layer vis_intensity (Some before'))
  /\ (exists block_marker : Marker,
        forall before : MarkerArray,
          createOccupancyBlocksFromLayer layer vis_occupied frame_id (Some before)
          = Done (before ++ [block_marker])).
Proof.
  split; [|split].
  - intros before before'. by rewrite !color_pointcloud_calls.
  - intros before before'. by rewrite !intensity_pointcloud_calls.
  - exists (occupancy_marker layer vis_occupied frame_id).
    intros before. apply occupancy_blocks_marker.
Qed.

(** C1 as stated fails in the occupancy mode: on the sample layer the result
    for an array that held a marker differs from the result for an empty
    array, and the marker held before the call is still there. *)
Lemma marker_array_not_cleared :
  let run := createOccupancyBlocksFromLayer (H := sample_color_model)
               sample_layer visualizeOccupiedTsdfVoxels "map" in
  let block_marker := occupancy_marker (H := sample_color_model) sample_layer
                        visualizeOccupiedTsdfVoxels "map" in
  run (Some []) = Done [block_marker]
  /\ run (Some [earlier_marker]) = Done [earlier_marker; block_marker]
  /\ run (Some [earlier_marker]) <> run (Some []).
Proof.
  cbv zeta. rewrite !occupancy_blocks_marker.
  split; [done|]. split; [done|]. intros Heq. discriminate Heq.
Qed.

(** C2, as amended.  With a predicate that fails on every voxel the two
    pointcloud overloads return an empty pointcloud; the occupancy traversal
    still pushes its marker into the array, and that marker has no points
    and no colours. *)
Theorem always_failing_predicate_output `{ColorModel} {VoxelType : Type}
    (layer : Layer VoxelType)
    (vis_color : ShouldVisualizeVoxelColorFunctionType VoxelType)
    (vis_intensity : ShouldVisualizeVoxelIntensityFunctionType VoxelType)
    (vis_occupied : ShouldVisualizeVoxelFunctionType VoxelType)
    (frame_id : string) (pointcloud_rgb : list PointXYZRGB)
    (pointcloud_i : list PointXYZI) (markers : MarkerArray) :
  (forall voxel coord color, (vis_color voxel coord color).1 = false) ->
  (forall voxel coord intensity,
     (vis_intensity voxel coord intensity).1 = false) ->
  (forall voxel coord, vis_occupied voxel coord = false) ->
  XYZRGB.createColorPointcloudFromLayer layer vis_color (Some pointcloud_rgb)
  = Done []
  /\ XYZI.createColorPointcloudFromLayer layer vis_intensity (Some pointcloud_i)
     = Done []
  /\ exists block_marker : Marker,
       createOccupancyBlocksFromLayer layer vis_occupied frame_id (Some markers)
       = Done (markers ++ [block_marker])
       /\ points block_marker = [] /\ colors block_marker = [].
Proof.
  intros Hcolor Hintensity Hoccupied. split; [|split].
  - by rewrite color_pointcloud_calls, passed_calls_none.
  - by rewrite intensity_pointcloud_calls, passed_calls_none.
  - exists (occupancy_marker layer vis_occupied frame_id).
    split; [apply occupancy_blocks_marker|].
    unfold occupancy_marker. cbn [points colors].
    by rewrite occupied_voxels_none.
Qed.

Lemma always_failing_predicate_output_witness :
  XYZRGB.createColorPointcloudFromLayer (H := sample_color_model) sample_layer
    (fun _ _ _ => (false, None)) (Some [])
  = Done []
  /\ XYZI.createColorPointcloudFromLayer sample_layer
       (fun _ _ _ => (false, Some (F64.of_Z 5))) (Some [])
     = Done []
  /\ exists block_marker : Marker,
       createOccupancyBlocksFromLayer (H := sample_color_model) sample_layer
         (fun _ _ => false) "map" (Some [earlier_marker])
       = Done ([earlier_marker] ++ [block_marker])
       /\ points block_marker = [] /\ colors block_marker = [].
Proof.
  apply (always_failing_predicate_output (H := sample_color_model)
           sample_layer (fun _ _ _ => (false, None))
           (fun _ _ _ => (false, Some (F64.of_Z 5))) (fun _ _ => false)
           "map" [] [] [earlier_marker]);
    reflexivity.
Defined.

(** C2 as stated fails in the occupancy mode: with a predicate that always
    fails, on the sample layer and an empty array, the array holds one
    marker after the call. *)
Lemma always_failing_marker_array_nonempty :
  exists block_marker : Marker,
    createOccupancyBlocksFromLayer (H := sample_color_model) sample_layer
      (fun _ _ => false) "map" (Some [])
    = Done [block_marker]
    /\ createOccupancyBlocksFromLayer (H := sample_color_model) sample_layer
         (fun _ _ => false) "map" (Some [])
       <> Done [].
Proof.
  eexists. split; [vm_compute; reflexivity|]. by vm_compute.
Qed.

Lemma num_voxels_per_block_mod {VoxelType : Type} (layer : Layer VoxelType) :
  num_voxels_per_block layer = voxels_per_side layer ^ 3 mod 2 ^ 64.
Proof.
  unfold num_voxels_per_block, size_t_mul.
  rewrite Z.mul_mod_idemp_l by done. f_equal. ring.
Qed.

(** C3, as amended.  With a predicate that passes on every voxel, each
    traversal makes exactly one entry per call, the calls are made at the
    positions of the layer, one call per position and no position twice,
    and the number of entries is the number of allocated blocks times the
    voxel count [vps * vps * vps] that the code computes in [size_t], that
    is [voxels_per_side ^ 3] modulo [2 ^ 64].  On a well-formed layer, where
    the cube of the side is a [size_t] wherever a block is allocated, that
    number is the number of allocated blocks times [voxels_per_side ^ 3]. *)
Theorem always_passing_predicate_count `{ColorModel} {VoxelType : Type}
    (layer : Layer VoxelType)
    (vis_color : ShouldVisualizeVoxelColorFunctionType VoxelType)
    (vis_intensity : ShouldVisualizeVoxelIntensityFunctionType VoxelType)
    (vis_occupied : ShouldVisualizeVoxelFunctionType VoxelType)
    (frame_id : string) (pointcloud_rgb : list PointXYZRGB)
    (pointcloud_i : list PointXYZI) (markers : MarkerArray) :
  (forall voxel coord color, (vis_color voxel coord color).1 = true) ->
  (forall voxel coord intensity,
     (vis_intensity voxel coord intensity).1 = true) ->
  (forall voxel coord, vis_occupied voxel coord = true) ->
  let color_calls := calls vis_color Color_default (layer_voxels layer) in
  let intensity_calls :=
    calls vis_intensity (S754_zero false) (layer_voxels layer) in
  let entries :=
    Z.of_nat (size (block_map layer)) * num_voxels_per_block layer in
  (num_voxels_per_block layer = voxels_per_side layer ^ 3 mod 2 ^ 64
   /\ (well_formed layer ->
       entries
       = Z.of_nat (size (block_map layer)) * voxels_per_side layer ^ 3))
  /\ (NoDup (layer_positions layer)
      /\ Z.of_nat (length (layer_positions layer)) = entries)
  /\ (XYZRGB.createColorPointcloudFromLayer layer vis_color
        (Some pointcloud_rgb)
      = Done (colored_point <$> color_calls)
      /\ passed color_calls = color_calls
      /\ call_position <$> color_calls = layer_positions layer
      /\ Z.of_nat (length (colored_point <$> color_calls)) = entries)
  /\ (XYZI.createColorPointcloudFromLayer layer vis_intensity
        (Some pointcloud_i)
      = Done (intensity_point <$> intensity_calls)
      /\ passed intensity_calls = intensity_calls
      /\ call_position <$> intensity_calls = layer_positions layer
      /\ Z.of_nat (length (intensity_point <$> intensity_calls)) = entries)
  /\ (exists block_marker : Marker,
        createOccupancyBlocksFromLayer layer vis_occupied frame_id
          (Some markers)
        = Done (markers ++ [block_marker])
        /\ points block_marker = cube_center <$> layer_voxels layer
        /\ colors block_marker = cube_color <$> layer_voxels layer
        /\ (fun v => (v.1.1, v.2)) <$> layer_voxels layer
           = layer_positions layer
        /\ Z.of_nat (length (points block_marker)) = entries
        /\ Z.of_nat (length (colors block_marker)) = entries).
Proof.
  intros Hcolor Hintensity Hoccupied color_calls intensity_calls entries.
  assert (Z.of_nat (length (layer_voxels layer)) = entries) as Hcount.
  { rewrite length_layer_voxels, Nat2Z.inj_mul, Z2Nat.id; [done|].
    rewrite num_voxels_per_block_mod. by apply Z.mod_pos_bound. }
  split; [|split; [|split; [|split]]].
  - split; [apply num_voxels_per_block_mod|].
    intros Hwf. rewrite <- Hcount. by apply visited_voxel_count.
  - split; [apply NoDup_layer_positions|].
    by rewrite <- layer_voxels_positions, length_fmap.
  - unfold color_calls.
    rewrite color_pointcloud_calls, passed_calls_all by done.
    split; [done|]. split; [done|]. split.
    + by rewrite call_position_calls, layer_voxels_positions.
    + by rewrite length_fmap, length_calls.
  - unfold intensity_calls.
    rewrite intensity_pointcloud_calls, passed_calls_all by done.
    split; [done|]. split; [done|]. split.
    + by rewrite call_position_calls, layer_voxels_positions.
    + by rewrite length_fmap, length_calls.
  - exists (occupancy_marker layer vis_occupied frame_id).
    split; [apply occupancy_blocks_marker|].
    unfold occupancy_marker. cbn [points colors].
    rewrite occupied_voxels_all by done.
    split; [done|]. split; [done|].
    split; [apply layer_voxels_positions|].
    by rewrite !length_fmap.
Qed.

Lemma always_passing_predicate_count_witness :
  let vis_color : ShouldVisualizeVoxelColorFunctionType TsdfVoxel :=
    fun voxel _ _ => (true, Some (tsdf_color voxel)) in
  let vis_intensity : ShouldVisualizeVoxelIntensityFunctionType TsdfVoxel :=
    fun _ _ _ => (true, None) in
  let color_calls :=
    calls vis_color (Color_default (ColorModel := sample_color_model))
      (layer_voxels sample_layer) in
  let intensity_calls :=
    calls vis_intensity (S754_zero false) (layer_voxels sample_layer) in
  let entries :=
    Z.of_nat (size (block_map sample_layer))
    * num_voxels_per_block sample_layer in
  (entries = 8
   /\ entries
      = Z.of_nat (size (block_map sample_layer))
        * voxels_per_side sample_layer ^ 3)
  /\ (NoDup (layer_positions sample_layer)
      /\ Z.of_nat (length (layer_positions sample_layer)) = entries)
  /\ (XYZRGB.createColorPointcloudFromLayer (H := sample_color_model)
        sample_layer vis_color (Some [])
      = Done (colored_point <$> color_calls)
      /\ passed color_calls = color_calls
      /\ call_position <$> color_calls = layer_positions sample_layer
      /\ Z.of_nat (length (colored_point <$> color_calls)) = entries)
  /\ (XYZI.createColorPointcloudFromLayer sample_layer vis_intensity (Some [])
      = Done (intensity_point <$> intensity_calls)
      /\ passed intensity_calls = intensity_calls
      /\ call_position <$> intensity_calls = layer_positions sample_layer
      /\ Z.of_nat (length (intensity_point <$> intensity_calls)) = entries)
  /\ (exists block_marker : Marker,
        createOccupancyBlocksFromLayer (H := sample_color_model) sample_layer
          (fun _ _ => true) "map" (Some [earlier_marker])
        = Done ([earlier_marker] ++ [block_marker])
        /\ points block_marker = cube_center <$> layer_voxels sample_layer
        /\ colors block_marker
           = cube_color (H := sample_color_model) <$> layer_voxels sample_layer
        /\ (fun v => (v.1.1, v.2)) <$> layer_voxels sample_layer
           = layer_positions sample_layer
        /\ Z.of_nat (length (points block_marker)) = entries
        /\ Z.of_nat (length (colors block_marker)) = entries).
Proof.
  intros vis_color vis_intensity color_calls intensity_calls entries.
  destruct (always_passing_predicate_count (H := sample_color_model)
              sample_layer vis_color vis_intensity (fun _ _ => true) "map"
              [] [] [earlier_marker])
    as ((_ & Hcube) & Hpositions & Hrgb & Hi & Hmarker);
    [reflexivity..|].
  split; [|done].
  split; [reflexivity|].
  apply Hcube. intros _. split; [discriminate|reflexivity].
Defined.

(** C3 as stated fails where the cube of the side is no [size_t]: on the
    layer of one block with side [2 ^ 22] the claimed number of entries is
    [2 ^ 66], and with predicates that pass on every voxel the voxel count
    wraps to [0] and the traversals make no entry. *)
Lemma always_passing_count_wraps :
  let claimed :=
    Z.of_nat (size (block_map wrapping_layer))
    * voxels_per_side wrapping_layer ^ 3 in
  claimed = 2 ^ 66
  /\ num_voxels_per_block wrapping_layer = 0
  /\ (exists out : list PointXYZRGB,
        XYZRGB.createColorPointcloudFromLayer (H := sample_color_model)
          wrapping_layer (fun voxel _ _ => (true, Some (tsdf_color voxel)))
          (Some [])
        = Done out
        /\ out = [] /\ Z.of_nat (length out) <> claimed)
  /\ (exists out : list PointXYZI,
        XYZI.createColorPointcloudFromLayer wrapping_layer
          (fun voxel _ _ => (true, Some (float_to_double (tsdf_distance voxel))))
          (Some [])
        = Done out
        /\ out = [] /\ Z.of_nat (length out) <> claimed)
  /\ (exists block_marker : Marker,
        createOccupancyBlocksFromLayer (H := sample_color_model)
          wrapping_layer (fun _ _ => true) "map" (Some [])
        = Done [block_marker]
        /\ points block_marker = [] /\ colors block_marker = []
        /\ Z.of_nat (length (points block_marker)) <> claimed).
Proof.
  cbv zeta. split; [reflexivity|]. split; [reflexivity|].
  split; [|split].
  - exists []. split; [vm_compute; reflexivity|]. split; [done|]. by vm_compute.
  - exists []. split; [vm_compute; reflexivity|]. split; [done|]. by vm_compute.
  - eexists. split; [vm_compute; reflexivity|].
    split; [done|]. split; [done|]. by vm_compute.
Qed.

(** ** Null accumulators and totality *)

Section Totality.
Context `{ColorModel} {VoxelType : Type}.
Implicit Types (layer : Layer VoxelType).

Lemma layer_voxels_empty layer :
  block_map layer = ∅ -> layer_voxels layer = [].
Proof. intros Hempty. unfold layer_voxels. by rewrite Hempty, map_to_list_empty. Qed.
End Totality.

(** C6, as amended.  Each traversal dies in its null check, returning
    nothing, when the accumulator pointer is null; given an accumulator it
    returns, whatever the layer and the predicate.  On a layer without
    blocks the two pointcloud overloads return an empty pointcloud, and the
    occupancy traversal pushes one marker without points and colours behind
    the markers of the array. *)
Theorem null_accumulator_and_totality `{ColorModel} {VoxelType : Type}
    (layer : Layer VoxelType)
    (vis_color : ShouldVisualizeVoxelColorFunctionType VoxelType)
    (vis_intensity : ShouldVisualizeVoxelIntensityFunctionType VoxelType)
    (vis_occupied : ShouldVisualizeVoxelFunctionType VoxelType)
    (frame_id : string) (pointcloud_rgb : list PointXYZRGB)
    (pointcloud_i : list PointXYZI) (markers : MarkerArray) :
  (XYZRGB.createColorPointcloudFromLayer layer vis_color None = Fatal
   /\ XYZI.createColorPointcloudFromLayer layer vis_intensity None = Fatal
   /\ createOccupancyBlocksFromLayer layer vis_occupied frame_id None = Fatal)
  /\ ((exists out, XYZRGB.createColorPointcloudFromLayer layer vis_color
                     (Some pointcloud_rgb) = Done out)
      /\ (exists out, XYZI.createColorPointcloudFromLayer layer vis_intensity
                        (Some pointcloud_i) = Done out)
      /\ (exists out, createOccupancyBlocksFromLayer layer vis_occupied
                        frame_id (Some markers) = Done out))
  /\ (block_map layer = ∅ ->
      XYZRGB.createColorPointcloudFromLayer layer vis_color
        (Some pointcloud_rgb) = Done []
      /\ XYZI.createColorPointcloudFromLayer layer vis_intensity
           (Some pointcloud_i) = Done []
      /\ exists block_marker : Marker,
           createOccupancyBlocksFromLayer layer vis_occupied frame_id
             (Some markers)
           = Done (markers ++ [block_marker])
           /\ points block_marker = [] /\ colors block_marker = []).
Proof.
  split; [done|]. split.
  - rewrite color_pointcloud_calls, intensity_pointcloud_calls,
      occupancy_blocks_marker.
    repeat split; eexists; reflexivity.
  - intros Hempty.
    rewrite color_pointcloud_calls, intensity_pointcloud_calls,
      occupancy_blocks_marker.
    unfold occupancy_marker. rewrite (layer_voxels_empty layer Hempty).
    split; [done|]. split; [done|]. eexists. split; [reflexivity|]. done.
Qed.

Lemma null_accumulator_and_totality_witness :
  XYZRGB.createColorPointcloudFromLayer (H := sample_color_model) empty_layer
    (fun voxel coord color => visualizeNearSurfaceTsdfVoxels voxel coord
                                (F64.of_Z 1) color)
    (Some [colored_point
             {| call_index := (0, 0, 0); call_linear_index := 0;
                call_coord := sample_coordinates 0; call_pass := true;
                call_write := None; call_held := sample_color |}])
  = Done []
  /\ XYZI.createColorPointcloudFromLayer empty_layer
       visualizeDistanceIntensityTsdfVoxels (Some []) = Done []
  /\ exists block_marker : Marker,
       createOccupancyBlocksFromLayer (H := sample_color_model) empty_layer
         visualizeOccupiedTsdfVoxels "map" (Some [earlier_marker])
       = Done ([earlier_marker] ++ [block_marker])
       /\ points block_marker = [] /\ colors block_marker = [].
Proof.
  apply (null_accumulator_and_totality (H := sample_color_model) empty_layer
           (fun voxel coord color => visualizeNearSurfaceTsdfVoxels voxel coord
                                       (F64.of_Z 1) color)
           visualizeDistanceIntensityTsdfVoxels visualizeOccupiedTsdfVoxels
           "map" _ [] [earlier_marker]).
  reflexivity.
Defined.

(** C6 as stated fails in the occupancy mode: on the layer without blocks
    and an empty array, the array holds one marker after the call. *)
Lemma empty_layer_marker_array_nonempty :
  exists block_marker : Marker,
    createOccupancyBlocksFromTsdfLayer (H := sample_color_model) empty_layer
      "map" (Some [])
    = Done [block_marker]
    /\ createOccupancyBlocksFromTsdfLayer (H := sample_color_model) empty_layer
         "map" (Some [])
       <> Done [].
Proof.
  eexists. split; [vm_compute; reflexivity|]. by vm_compute.
Qed.

(** ** The marker of the occupancy traversal *)

(** C8.  A call of [createOccupancyBlocksFromLayer] returns the array it was
    given with exactly one marker pushed behind its markers, whatever the
    layer and the predicate; [n] calls in a row on one array push [n]
    markers behind the markers it held at first. *)
Theorem occupancy_appends_one_marker `{ColorModel} {VoxelType : Type}
    (layer : Layer VoxelType)
    (vis_function : ShouldVisualizeVoxelFunctionType VoxelType)
    (frame_id : string) (markers : MarkerArray) (n : nat) :
  (exists block_marker : Marker,
     createOccupancyBlocksFromLayer layer vis_function frame_id (Some markers)
     = Done (markers ++ [block_marker]))
  /\ (exists added : list Marker,
        repeated_calls n layer vis_function frame_id markers
        = Done (markers ++ added)
        /\ length added = n).
Proof.
  split.
  - eexists. apply occupancy_blocks_marker.
  - revert markers. induction n as [|n IH]; intros markers.
    + exists []. by rewrite app_nil_r.
    + cbn [repeated_calls]. rewrite occupancy_blocks_marker.
      cbn [mbind outcome_bind].
      destruct (IH (markers ++ [occupancy_marker layer vis_function frame_id]))
        as (added & Hcalls & Hlength).
      exists (occupancy_marker layer vis_function frame_id :: added).
      rewrite Hcalls, <- app_assoc. split; [done|]. cbn. by rewrite Hlength.
Qed.

Section MarkerLists.
Context `{ColorModel} {VoxelType : Type}.

Lemma occupancy_visit_voxel_lengths
    (vis_function : ShouldVisualizeVoxelFunctionType VoxelType)
    (block : Block VoxelType) (m : Marker) (linear_index : Z) :
  let m' := occupancy_visit_voxel vis_function block m linear_index in
  let pushed :=
    if vis_function (getVoxelByLinearIndex block linear_index)
         (computeCoordinatesFromLinearIndex block linear_index)
    then 1%nat else 0%nat in
  length (points m') = (length (points m) + pushed)%nat
  /\ length (colors m') = (length (colors m) + pushed)%nat.
Proof.
  cbv zeta. unfold occupancy_visit_voxel.
  destruct (vis_function _ _); cbn [points colors points_push_back
    colors_push_back]; unfold push_back; rewrite ?length_app; cbn; lia.
Qed.
End MarkerLists.

(** C9.  Each iteration of the voxel loop pushes either one point and one
    colour or neither, and in the marker the occupancy traversal pushes into
    the array the points and the colours have the same length. *)
Theorem marker_points_colors_same_length `{ColorModel} {VoxelType : Type}
    (layer : Layer VoxelType)
    (vis_function : ShouldVisualizeVoxelFunctionType VoxelType)
    (frame_id : string) (markers : MarkerArray) :
  (forall (block : Block VoxelType) (m : Marker) (linear_index : Z),
     let m' := occupancy_visit_voxel vis_function block m linear_index in
     let pushed :=
       if vis_function (getVoxelByLinearIndex block linear_index)
            (computeCoordinatesFromLinearIndex block linear_index)
       then 1%nat else 0%nat in
     length (points m') = (length (points m) + pushed)%nat
     /\ length (colors m') = (length (colors m) + pushed)%nat)
  /\ exists block_marker : Marker,
       createOccupancyBlocksFromLayer layer vis_function frame_id (Some markers)
       = Done (markers ++ [block_marker])
       /\ length (points block_marker) = length (colors block_marker).
Proof.
  split; [apply occupancy_visit_voxel_lengths|].
  exists (occupancy_marker layer vis_function frame_id).
  split; [apply occupancy_blocks_marker|].
  unfold occupancy_marker. cbn [points colors]. by rewrite !length_fmap.
Qed.

(** ** Order and origin of the entries *)

Section Origin.
Context {VoxelType S : Type}.
Implicit Types (layer : Layer VoxelType)
  (vis_function : VoxelType -> Point -> S -> bool * option S).

Lemma layer_voxels_voxel_of layer : Forall (voxel_of layer) (layer_voxels layer).
Proof.
  apply Forall_forall. intros [[index block] i] Hin.
  unfold layer_voxels in Hin.
  apply list_elem_of_bind in Hin as ([index' block'] & Hin & Hblock).
  apply list_elem_of_fmap in Hin as (i' & [= -> -> ->] & Hi).
  apply elem_of_map_to_list in Hblock. apply elem_of_seqZ in Hi.
  split; [done|]. cbn [snd]. lia.
Qed.

Lemma calls_made_on layer vis_function (held : S)
    (voxels : list (BlockIndex * Block VoxelType * Z)) :
  Forall (voxel_of layer) voxels ->
  Forall (made_on layer vis_function) (calls vis_function held voxels).
Proof.
  intros Hvoxels. revert held.
  induction Hvoxels as [|[[index block] i] voxels [Hblock Hi] _ IH];
    intros held; cbn [calls].
  - constructor.
  - destruct (vis_function _ _ held) as [pass write] eqn:Hvis.
    constructor; [|apply IH].
    exists block, held. by cbn.
Qed.
End Origin.

Lemma filter_all_satisfy {A : Type} (P : A -> Prop)
    `{!forall a, Decision (P a)} (l : list A) :
  Forall P (filter P l).
Proof.
  apply Forall_forall. intros a Hin.
  by apply list_elem_of_filter in Hin as [Ha _].
Qed.

(** C7.  The traversal calls the predicate once at each position of the
    layer, block after block in the order of [getAllAllocatedBlocks] and in
    a block by ascending linear index, and no position comes twice; each
    call is made on the voxel of an allocated block at that position.  The
    points of a pointcloud overload are, in that order, the points of the
    calls that passed, one point per such call; the points and the colours
    of the marker are, in that order, the cube centres and the cube colours
    of the voxels the predicate accepted. *)
Theorem emitted_entries_in_traversal_order `{ColorModel} {VoxelType : Type}
    (layer : Layer VoxelType)
    (vis_color : ShouldVisualizeVoxelColorFunctionType VoxelType)
    (vis_intensity : ShouldVisualizeVoxelIntensityFunctionType VoxelType)
    (vis_occupied : ShouldVisualizeVoxelFunctionType VoxelType)
    (frame_id : string) (pointcloud_rgb : list PointXYZRGB)
    (pointcloud_i : list PointXYZI) (markers : MarkerArray) :
  let color_calls := calls vis_color Color_default (layer_voxels layer) in
  let intensity_calls :=
    calls vis_intensity (S754_zero false) (layer_voxels layer) in
  let occupied := occupied_voxels vis_occupied (layer_voxels layer) in
  (layer_positions layer
   = (index ← getAllAllocatedBlocks layer;
      (fun linear_index => (index, linear_index))
        <$> seqZ 0 (num_voxels_per_block layer))
   /\ NoDup (layer_positions layer)
   /\ (fun v => (v.1.1, v.2)) <$> layer_voxels layer = layer_positions layer)
  /\ (XYZRGB.createColorPointcloudFromLayer layer vis_color
        (Some pointcloud_rgb)
      = Done (colored_point <$> passed color_calls)
      /\ call_position <$> color_calls = layer_positions layer
      /\ Forall (made_on layer vis_color) color_calls
      /\ Forall (fun c => call_pass c = true) (passed color_calls)
      /\ passed color_calls `sublist_of` color_calls)
  /\ (XYZI.createColorPointcloudFromLayer layer vis_intensity
        (Some pointcloud_i)
      = Done (intensity_point <$> passed intensity_calls)
      /\ call_position <$> intensity_calls = layer_positions layer
      /\ Forall (made_on layer vis_intensity) intensity_calls
      /\ Forall (fun c => call_pass c = true) (passed intensity_calls)
      /\ passed intensity_calls `sublist_of` intensity_calls)
  /\ (exists block_marker : Marker,
        createOccupancyBlocksFromLayer layer vis_occupied frame_id
          (Some markers)
        = Done (markers ++ [block_marker])
        /\ points block_marker = cube_center <$> occupied
        /\ colors block_marker = cube_color <$> occupied
        /\ Forall (voxel_of layer) (layer_voxels layer)
        /\ Forall
             (fun v => vis_occupied (getVoxelByLinearIndex v.1.2 v.2)
                         (computeCoordinatesFromLinearIndex v.1.2 v.2) = true)
             occupied
        /\ occupied `sublist_of` layer_voxels layer).
Proof.
  cbv zeta. split; [|split; [|split]].
  - split; [reflexivity|]. split; [apply NoDup_layer_positions|].
    apply layer_voxels_positions.
  - split; [apply color_pointcloud_calls|].
    split; [by rewrite call_position_calls, layer_voxels_positions|].
    split; [apply calls_made_on, layer_voxels_voxel_of|].
    split; [apply filter_all_satisfy|apply sublist_filter].
  - split; [apply intensity_pointcloud_calls|].
    split; [by rewrite call_position_calls, layer_voxels_positions|].
    split; [apply calls_made_on, layer_voxels_voxel_of|].
    split; [apply filter_all_satisfy|apply sublist_filter].
  - exists (occupancy_marker layer vis_occupied frame_id).
    split; [apply occupancy_blocks_marker|]. split; [done|]. split; [done|].
    split; [apply layer_voxels_voxel_of|].
    split; [apply filter_all_satisfy|apply sublist_filter].
Qed.

(** ** The temporary of the intensity overload *)

Section Temporary.
Context {VoxelType S : Type}.
Implicit Types
  (vis_function : VoxelType -> Point -> S -> bool * option S)
  (voxels : list (BlockIndex * Block VoxelType * Z)).

Lemma last_stored_nil (init : S) : last_stored init [] = init.
Proof. reflexivity. Qed.

Lemma last_stored_cons (init : S) (c : call S) (cs : list (call S)) :
  last_stored init (c :: cs) = last_stored (stored init (call_write c)) cs.
Proof.
  unfold last_stored. cbn [omap list_omap].
  destruct (call_write c) as [v|]; [|done].
  cbn [stored]. destruct (omap call_write cs) as [|w ws]; [done|].
  change (last (v :: w :: ws)) with (last (w :: ws)).
  destruct (last (w :: ws)) eqn:Hlast; [done|].
  by apply last_None in Hlast.
Qed.

(** The value a pointer holds after a call is the value the call stored,
    and without a store the value stored last by the calls before it,
    passed or not, or the initial value when none of them stored. *)
Lemma call_held_last_stored vis_function (init : S) voxels
    (pre post : list (call S)) (c : call S) :
  calls vis_function init voxels = pre ++ c :: post ->
  call_held c = stored (last_stored init pre) (call_write c).
Proof.
  revert init voxels.
  induction pre as [|p pre IH]; intros init voxels Hcalls;
    destruct voxels as [|[[index block] i] voxels]; try discriminate Hcalls;
    cbn [calls] in Hcalls;
    destruct (vis_function _ _ init) as [pass write];
    cbn [app] in Hcalls; injection Hcalls as Hhead Htail.
  - subst c. reflexivity.
  - rewrite last_stored_cons. subst p. cbn [call_write].
    by apply (IH _ voxels).
Qed.
End Temporary.

(** C10, as amended.  The intensity overload keeps one temporary, [0.0]
    before the first call, through all calls of the predicate.  The point of
    a call that passed carries the temporary, narrowed to [float], as it is
    after that call: the value the call stored, and when the call stored
    nothing the value stored last by an earlier call, whether that call
    passed or failed, or [0.0] when no earlier call stored. *)
Theorem intensity_temporary_shared {VoxelType : Type}
    (layer : Layer VoxelType)
    (vis_function : ShouldVisualizeVoxelIntensityFunctionType VoxelType)
    (pointcloud : list PointXYZI)
    (pre post : list (call spec_float)) (c : call spec_float) :
  calls vis_function (S754_zero false) (layer_voxels layer)
  = pre ++ c :: post ->
  XYZI.createColorPointcloudFromLayer layer vis_function (Some pointcloud)
  = Done (intensity_point <$> passed (pre ++ c :: post))
  /\ i_intensity (intensity_point c) = double_to_float (call_held c)
  /\ call_held c
     = match call_write c with
       | Some v => v
       | None => last_stored (S754_zero false) pre
       end.
Proof.
  intros Hcalls. split; [|split].
  - by rewrite intensity_pointcloud_calls, Hcalls.
  - reflexivity.
  - rewrite (call_held_last_stored vis_function _ _ pre post c Hcalls).
    by destruct (call_write c).
Qed.

Lemma intensity_temporary_shared_witness :
  let five := F64.of_Z 5 in
  let call (i : Z) (pass : bool) (write : option spec_float) :=
    {| call_index := (0, 0, 0); call_linear_index := i;
       call_coord := sample_coordinates i; call_pass := pass;
       call_write := write; call_held := five |} in
  let pre := [call 0 false (Some five)] in
  let c := call 1 true None in
  let post := (fun i => call i true None) <$> seqZ 2 6 in
  XYZI.createColorPointcloudFromLayer sample_layer store_on_fail (Some [])
  = Done (intensity_point <$> passed (pre ++ c :: post))
  /\ i_intensity (intensity_point c) = double_to_float (call_held c)
  /\ call_held c = last_stored (S754_zero false) pre.
Proof.
  intros five call pre c post.
  apply (intensity_temporary_shared sample_layer store_on_fail [] pre post c).
  vm_compute. reflexivity.
Defined.

(** C10 as stated fails for a predicate that stores through the pointer on
    a voxel it rejects.  On the sample layer [store_on_fail] stores [5.0]
    and fails at linear index [0], and passes without storing at linear
    index [1]: the first point of the pointcloud comes from that call, no
    call passed before it, and its intensity is [5.0], not [0.0]. *)
Lemma intensity_stale_from_failed_call :
  exists (pre post : list (call spec_float)) (c : call spec_float)
         (rest : list PointXYZI),
    calls store_on_fail (S754_zero false) (layer_voxels sample_layer)
    = pre ++ c :: post
    /\ call_pass c = true /\ call_write c = None
    /\ passed pre = []
    /\ last_stored (S754_zero false) (passed pre) = S754_zero false
    /\ XYZI.createColorPointcloudFromLayer sample_layer store_on_fail (Some [])
       = Done (intensity_point c :: rest)
    /\ i_intensity (intensity_point c) = F32.of_Z 5
    /\ i_intensity (intensity_point c) <> S754_zero false.
Proof.
  eexists [_], _, _, _.
  split; [vm_compute; reflexivity|].
  repeat split; try (vm_compute; reflexivity). by vm_compute.
Qed.

(** ** The sample predicates *)

Lemma is_float_true (x : spec_float) :
  is_float x = true ->
  valid_binary F32.prec F32.emax x = true /\ is_finite x = true.
Proof. intros Hx. by apply andb_true_iff in Hx. Qed.

Lemma is_double_true (x : spec_float) :
  is_double x = true ->
  valid_binary F64.prec F64.emax x = true /\ is_finite x = true.
Proof. intros Hx. by apply andb_true_iff in Hx. Qed.

(** [voxel.weight > 0], on numbers. *)
Lemma weight_positive_numbers (weight : spec_float) :
  is_float weight = true ->
  F32.gtb weight (F32.of_Z 0) = true <-> (0 < SF2Q weight)%Q.
Proof.
  intros [Hvalid Hfinite]%is_float_true.
  by apply (SFltb_SF2Q F32.prec F32.emax (S754_zero false) weight).
Qed.

(** [std::abs(voxel.distance) < surface_distance], on numbers. *)
Lemma distance_near_numbers (distance surface_distance : spec_float) :
  is_float distance = true -> is_double surface_distance = true ->
  F64.ltb (float_to_double (F32.abs distance)) surface_distance = true
  <-> (Qabs (SF2Q distance) < SF2Q surface_distance)%Q.
Proof.
  intros [Hvalid Hfinite]%is_float_true [Hvalid' Hfinite']%is_double_true.
  destruct (float_to_double_exact (SFabs distance)) as (Hv & Hf & Hvalue).
  { by rewrite SFabs_valid. }
  { by rewrite SFabs_finite. }
  unfold F64.ltb, F32.abs.
  rewrite (SFltb_SF2Q F64.prec F64.emax) by done.
  by rewrite Hvalue, SFabs_SF2Q.
Qed.

(** [voxel.weight > 1e-3], on numbers: for a [float], being above the
    [double] [1e-3] and being above [1/1000] are the same. *)
Lemma weight_confident_numbers (weight : spec_float) :
  is_float weight = true ->
  F64.gtb (float_to_double weight) lit_1e_3 = true
  <-> (1 # 1000 < SF2Q weight)%Q.
Proof.
  intros [Hvalid Hfinite]%is_float_true.
  destruct (float_to_double_exact weight Hvalid Hfinite) as (Hv & Hf & Hvalue).
  unfold F64.gtb.
  rewrite (SFltb_SF2Q F64.prec F64.emax) by done.
  rewrite Hvalue. by apply float_above_lit_1e_3.
Qed.

(** [voxel.distance <= 0], on numbers. *)
Lemma distance_inside_numbers (distance : spec_float) :
  is_float distance = true ->
  F32.leb distance (F32.of_Z 0) = true <-> (SF2Q distance <= 0)%Q.
Proof.
  intros [Hvalid Hfinite]%is_float_true.
  by apply (SFleb_SF2Q F32.prec F32.emax distance (S754_zero false)).
Qed.

(** C4.  [visualizeNearSurfaceTsdfVoxels] passes exactly when the weight is
    greater than [0] and the absolute value of the distance is less than the
    surface distance, in the comparisons of IEEE 754 and, where weight,
    distance and surface distance are numbers, in the order of the numbers;
    when it passes it stores the colour of the voxel, and otherwise it
    stores nothing.  A voxel of weight zero never passes; weight [1] and
    distance [0.0] pass for the surface distance [0.1]; the distance [0.2]
    fails for the surface distance [0.1]. *)
Theorem near_surface_predicate (voxel : TsdfVoxel) (coord : Point)
    (surface_distance : spec_float) (color : Color) :
  let result :=
    visualizeNearSurfaceTsdfVoxels voxel coord surface_distance color in
  let tenth := F64.div (F64.of_Z 1) (F64.of_Z 10) in
  (result.1 = true
   <-> SFltb (F32.of_Z 0) (tsdf_weight voxel) = true
       /\ SFltb (float_to_double (SFabs (tsdf_distance voxel)))
            surface_distance = true)
  /\ (is_float (tsdf_weight voxel) = true ->
      is_float (tsdf_distance voxel) = true ->
      is_double surface_distance = true ->
      result.1 = true
      <-> (0 < SF2Q (tsdf_weight voxel)
           /\ Qabs (SF2Q (tsdf_distance voxel)) < SF2Q surface_distance)%Q)
  /\ result.2 = (if result.1 then Some (tsdf_color voxel) else None)
  /\ (forall sign : bool,
        tsdf_weight voxel = S754_zero sign -> result.1 = false)
  /\ (tsdf_weight voxel = F32.of_Z 1 ->
      tsdf_distance voxel = S754_zero false ->
      surface_distance = tenth ->
      result = (true, Some (tsdf_color voxel)))
  /\ (tsdf_distance voxel = F32.div (F32.of_Z 1) (F32.of_Z 5) ->
      surface_distance = tenth ->
      result = (false, None)).
Proof.
  cbv zeta.
  assert ((visualizeNearSurfaceTsdfVoxels voxel coord surface_distance color).1
          = true
          <-> F32.gtb (tsdf_weight voxel) (F32.of_Z 0) = true
              /\ F64.ltb (float_to_double (F32.abs (tsdf_distance voxel)))
                   surface_distance = true) as Hpass.
  { unfold visualizeNearSurfaceTsdfVoxels.
    destruct (F32.gtb _ _ && F64.ltb _ surface_distance) eqn:Hcond.
    - by apply andb_true_iff in Hcond.
    - apply andb_false_iff in Hcond. cbn [fst].
      split; [done|]. intros [Hweight Hdistance].
      destruct Hcond as [Hcond|Hcond]; congruence. }
  split; [exact Hpass|]. split; [|split; [|split; [|split]]].
  - intros Hweight Hdistance Hsurface.
    by rewrite Hpass, weight_positive_numbers, distance_near_numbers.
  - unfold visualizeNearSurfaceTsdfVoxels.
    by destruct (F32.gtb _ _ && F64.ltb _ surface_distance).
  - unfold visualizeNearSurfaceTsdfVoxels. intros sign ->. reflexivity.
  - unfold visualizeNearSurfaceTsdfVoxels. intros -> -> ->. reflexivity.
  - unfold visualizeNearSurfaceTsdfVoxels. intros -> ->.
    by rewrite andb_false_r.
Qed.

Lemma near_surface_predicate_witness :
  let tenth := F64.div (F64.of_Z 1) (F64.of_Z 10) in
  let near (voxel : TsdfVoxel) :=
    visualizeNearSurfaceTsdfVoxels voxel (sample_coordinates 0) tenth
      sample_color in
  let voxel (weight distance : spec_float) :=
    {| tsdf_distance := distance; tsdf_weight := weight;
       tsdf_color := sample_color |} in
  ((SF2Q (tsdf_weight (sample_voxel 0)) == 1
    /\ SF2Q (tsdf_distance (sample_voxel 0)) == 13421773 # 268435456
    /\ SF2Q tenth == 3602879701896397 # 36028797018963968)%Q
   /\ (near (sample_voxel 0)).1 = true)
  /\ (near (sample_voxel 1)).1 = false
  /\ near (voxel (F32.of_Z 1) (S754_zero false)) = (true, Some sample_color)
  /\ near (voxel (F32.of_Z 1) (F32.div (F32.of_Z 1) (F32.of_Z 5)))
     = (false, None).
Proof.
  intros tenth near voxel. split; [|split; [|split]].
  - split; [by vm_compute|].
    destruct (near_surface_predicate (sample_voxel 0) (sample_coordinates 0)
                tenth sample_color) as (_ & Hnumbers & _).
    apply Hnumbers; [reflexivity..|by vm_compute].
  - destruct (near_surface_predicate (sample_voxel 1) (sample_coordinates 0)
                tenth sample_color) as (_ & _ & _ & Hzero & _).
    apply (Hzero false). reflexivity.
  - destruct (near_surface_predicate (voxel (F32.of_Z 1) (S754_zero false))
                (sample_coordinates 0) tenth sample_color)
      as (_ & _ & _ & _ & Hpass & _).
    apply Hpass; reflexivity.
  - destruct (near_surface_predicate
                (voxel (F32.of_Z 1) (F32.div (F32.of_Z 1) (F32.of_Z 5)))
                (sample_coordinates 0) tenth sample_color)
      as (_ & _ & _ & _ & _ & Hfail).
    apply Hfail; reflexivity.
Defined.

(** C5.  [visualizeOccupiedTsdfVoxels] passes exactly when the weight is
    greater than [1e-3] and the distance is at most [0], in the comparisons
    of IEEE 754 and, where weight and distance are numbers, in the order of
    the numbers.  Weight [0.01] and distance [-0.5] pass; weight [0.01] and
    distance [0.5] fail; weight [0.0005] and distance [-0.5] fail. *)
Theorem occupied_predicate (voxel : TsdfVoxel) (coord : Point) :
  let half := F32.div (F32.of_Z 1) (F32.of_Z 2) in
  (visualizeOccupiedTsdfVoxels voxel coord = true
   <-> SFltb lit_1e_3 (float_to_double (tsdf_weight voxel)) = true
       /\ SFleb (tsdf_distance voxel) (F32.of_Z 0) = true)
  /\ (is_float (tsdf_weight voxel) = true ->
      is_float (tsdf_distance voxel) = true ->
      visualizeOccupiedTsdfVoxels voxel coord = true
      <-> (1 # 1000 < SF2Q (tsdf_weight voxel)
           /\ SF2Q (tsdf_distance voxel) <= 0)%Q)
  /\ (tsdf_weight voxel = F32.div (F32.of_Z 1) (F32.of_Z 100) ->
      tsdf_distance voxel = SFopp half ->
      visualizeOccupiedTsdfVoxels voxel coord = true)
  /\ (tsdf_weight voxel = F32.div (F32.of_Z 1) (F32.of_Z 100) ->
      tsdf_distance voxel = half ->
      visualizeOccupiedTsdfVoxels voxel coord = false)
  /\ (tsdf_weight voxel = F32.div (F32.of_Z 1) (F32.of_Z 2000) ->
      tsdf_distance voxel = SFopp half ->
      visualizeOccupiedTsdfVoxels voxel coord = false).
Proof.
  cbv zeta.
  assert (visualizeOccupiedTsdfVoxels voxel coord = true
          <-> F64.gtb (float_to_double (tsdf_weight voxel)) lit_1e_3 = true
              /\ F32.leb (tsdf_distance voxel) (F32.of_Z 0) = true) as Hpass.
  { unfold visualizeOccupiedTsdfVoxels.
    destruct (F64.gtb _ lit_1e_3 && F32.leb _ (F32.of_Z 0)) eqn:Hcond.
    - by apply andb_true_iff in Hcond.
    - apply andb_false_iff in Hcond.
      split; [done|]. intros [Hweight Hdistance].
      destruct Hcond as [Hcond|Hcond]; congruence. }
  split; [exact Hpass|]. split; [|split; [|split]].
  - intros Hweight Hdistance.
    by rewrite Hpass, weight_confident_numbers, distance_inside_numbers.
  - unfold visualizeOccupiedTsdfVoxels. intros -> ->. reflexivity.
  - unfold visualizeOccupiedTsdfVoxels. intros -> ->. reflexivity.
  - unfold visualizeOccupiedTsdfVoxels. intros -> ->. reflexivity.
Qed.

Lemma occupied_predicate_witness :
  let half := F32.div (F32.of_Z 1) (F32.of_Z 2) in
  let voxel (weight distance : spec_float) :=
    {| tsdf_distance := distance; tsdf_weight := weight;
       tsdf_color := sample_color |} in
  let occupied (v : TsdfVoxel) :=
    visualizeOccupiedTsdfVoxels v (sample_coordinates 0) in
  ((SF2Q (F32.div (F32.of_Z 1) (F32.of_Z 100)) == 5368709 # 536870912
    /\ SF2Q (SFopp half) == - (1 # 2))%Q
   /\ occupied (voxel (F32.div (F32.of_Z 1) (F32.of_Z 100)) (SFopp half))
      = true)
  /\ occupied (voxel (F32.div (F32.of_Z 1) (F32.of_Z 100)) (SFopp half)) = true
  /\ occupied (voxel (F32.div (F32.of_Z 1) (F32.of_Z 100)) half) = false
  /\ occupied (voxel (F32.div (F32.of_Z 1) (F32.of_Z 2000)) (SFopp half))
     = false.
Proof.
  intros half voxel occupied. split; [|split; [|split]].
  - split; [by vm_compute|].
    destruct (occupied_predicate
                (voxel (F32.div (F32.of_Z 1) (F32.of_Z 100)) (SFopp half))
                (sample_coordinates 0)) as (_ & Hnumbers & _).
    apply Hnumbers; [reflexivity..|by vm_compute].
  - destruct (occupied_predicate
                (voxel (F32.div (F32.of_Z 1) (F32.of_Z 100)) (SFopp half))
                (sample_coordinates 0)) as (_ & _ & Hpass & _).
    apply Hpass; reflexivity.
  - destruct (occupied_predicate
                (voxel (F32.div (F32.of_Z 1) (F32.of_Z 100)) half)
                (sample_coordinates 0)) as (_ & _ & _ & Hfail & _).
    apply Hfail; reflexivity.
  - destruct (occupied_predicate
                (voxel (F32.div (F32.of_Z 1) (F32.of_Z 2000)) (SFopp half))
                (sample_coordinates 0)) as (_ & _ & _ & _ & Hfail).
    apply Hfail; reflexivity.
Defined.

(** * Further properties *)

(** ** The conversions between [float] and [double] *)

Lemma iter_pos_shr_1_exact (d m : positive) :
  SpecFloat.iter_pos shr_1 d
    {| shr_m := Z.pos (Pos.iter xO m d); shr_r := false; shr_s := false |}
  = {| shr_m := Z.pos m; shr_r := false; shr_s := false |}.
Proof.
  revert m. induction d as [d IH|d IH|]; intros m; cbn [SpecFloat.iter_pos Pos.iter].
  - cbn [shr_1 orb]. by rewrite !IH.
  - by rewrite !IH.
  - reflexivity.
Qed.

(** Rounding a mantissa that was shifted left gives the mantissa back. *)
Lemma binary_round_unshift (prec emax : Z) (s : bool) (m d : positive)
    (e : Z) :
  bounded prec emax m e = true ->
  binary_round prec emax s (Pos.iter xO m d) (e - Z.pos d)
  = S754_finite s m e.
Proof.
  intros Hbounded. pose proof Hbounded as Hb.
  unfold bounded, canonical_mantissa in Hb.
  apply andb_true_iff in Hb as [Hcanonical%Z.eqb_eq Hmax].
  destruct (digits2_pos_iter_xO m d) as [Hdigits _].
  assert (fexp prec emax (Z.pos (digits2_pos (Pos.iter xO m d)) + (e - Z.pos d))
          = e) as Hfexp.
  { rewrite Hdigits.
    by replace (Z.pos (digits2_pos m) + Z.pos d + (e - Z.pos d))
      with (Z.pos (digits2_pos m) + e) by lia. }
  unfold binary_round, shl_align. rewrite Hfexp.
  replace (e - (e - Z.pos d)) with (Z.pos d) by lia.
  unfold binary_round_aux, shr_fexp. cbn [Zdigits2]. rewrite Hfexp.
  replace (e - (e - Z.pos d)) with (Z.pos d) by lia.
  cbn [shr shr_record_of_loc]. rewrite iter_pos_shr_1_exact.
  cbn [shr_m loc_of_shr_record round_nearest_even Zdigits2].
  replace (e - Z.pos d + Z.pos d) with e by lia.
  rewrite Hcanonical, Z.sub_diag. cbn [shr shr_record_of_loc shr_m].
  by rewrite Hmax.
Qed.

Lemma binary_round_canonical (prec emax : Z) (s : bool) (m : positive)
    (e : Z) :
  bounded prec emax m e = true ->
  binary_round prec emax s m e = S754_finite s m e.
Proof.
  intros Hbounded. pose proof Hbounded as Hb.
  unfold bounded, canonical_mantissa in Hb.
  apply andb_true_iff in Hb as [Hcanonical%Z.eqb_eq _].
  unfold binary_round, shl_align. rewrite Hcanonical, Z.sub_diag.
  by apply binary_round_aux_canonical.
Qed.

(** A [float] widened to [double] and narrowed again is the same [float]:
    numbers, zeros, infinities and NaN alike. *)
Lemma double_to_float_to_double (x : spec_float) :
  valid_binary F32.prec F32.emax x = true ->
  double_to_float (float_to_double x) = x.
Proof.
  intros Hvalid. destruct x as [s| | |s m e]; try reflexivity.
  destruct (float_to_double_finite s m e Hvalid)
    as (m' & e' & -> & _ & He & Hm).
  assert (double_to_float (S754_finite s m' e')
          = binary_round F32.prec F32.emax s m' e') as ->.
  { unfold double_to_float, binary_normalize. by destruct s. }
  destruct (Z.eq_dec e' e) as [->|Hne].
  - rewrite Z.sub_diag, Z.mul_1_r in Hm. injection Hm as ->.
    by apply binary_round_canonical.
  - destruct (e - e') as [|d|d] eqn:Hd; try lia.
    destruct (digits2_pos_iter_xO m d) as [_ Hvalue].
    rewrite <- Hvalue in Hm. injection Hm as ->.
    replace e' with (e - Z.pos d) by lia.
    by apply binary_round_unshift.
Qed.

(** ** Predicates that select and attribute *)

Section Selecting.
Context {VoxelType S P : Type}.
Implicit Types
  (vis_function : VoxelType -> Point -> S -> bool * option S)
  (voxels : list (BlockIndex * Block VoxelType * Z)).

(** When the verdict does not depend on the temporary and a passing call
    stores a value that does not depend on it either, the entries are those
    of the selected voxels, each with the value stored for that voxel. *)
Lemma passed_calls_select vis_function (sel : VoxelType -> Point -> bool)
    (attr : VoxelType -> Point -> S) (emit : Point -> S -> P) (held : S)
    voxels :
  (forall voxel coord h, (vis_function voxel coord h).1 = sel voxel coord) ->
  (forall voxel coord h,
     sel voxel coord = true ->
     (vis_function voxel coord h).2 = Some (attr voxel coord)) ->
  (fun c => emit (call_coord c) (call_held c))
    <$> passed (calls vis_function held voxels)
  = (fun v => emit (coord_at v) (attr (voxel_at v) (coord_at v)))
      <$> filter (fun v => sel (voxel_at v) (coord_at v) = true) voxels.
Proof.
  intros Hsel Hattr. revert held.
  induction voxels as [|[[index block] i] voxels IH]; intros held; [done|].
  cbn [calls]. rewrite filter_cons. unfold voxel_at, coord_at at 1. cbn [fst snd].
  pose proof (Hsel (getVoxelByLinearIndex block i)
                (computeCoordinatesFromLinearIndex block i) held) as Hverdict.
  pose proof (Hattr (getVoxelByLinearIndex block i)
                (computeCoordinatesFromLinearIndex block i) held) as Hstore.
  destruct (vis_function _ _ held) as [pass write]. cbn [fst snd] in *.
  rewrite passed_cons. cbn [call_pass]. subst pass.
  destruct (sel _ _) eqn:Hpass.
  - rewrite decide_True by done. rewrite Hstore by done.
    rewrite !fmap_cons, IH. reflexivity.
  - rewrite decide_False by (by intros ?). apply IH.
Qed.
End Selecting.



(** ** The bindings for TSDF and ESDF layers, voxel by voxel *)

Lemma filter_ext_in {A : Type} (P Q : A -> Prop)
    `{!forall a, Decision (P a)} `{!forall a, Decision (Q a)} (l : list A) :
  (forall a, a ∈ l -> P a <-> Q a) -> filter P l = filter Q l.
Proof.
  induction l as [|a l IH]; intros Hiff; [done|].
  rewrite !filter_cons.
  assert (P a <-> Q a) as Ha by (apply Hiff; left).
  rewrite IH by (intros b Hb; apply Hiff; by right).
  destruct (decide (P a)), (decide (Q a)); tauto.
Qed.

Lemma filter_sublist_in {A : Type} (P Q : A -> Prop)
    `{!forall a, Decision (P a)} `{!forall a, Decision (Q a)} (l : list A) :
  (forall a, a ∈ l -> P a -> Q a) -> filter P l `sublist_of` filter Q l.
Proof.
  induction l as [|a l IH]; intros Himpl; [done|].
  rewrite !filter_cons.
  assert (P a -> Q a) as Ha by (apply Himpl; left).
  assert (filter P l `sublist_of` filter Q l) as Hl
    by (apply IH; intros b Hb; apply Himpl; by right).
  destruct (decide (P a)), (decide (Q a)); try tauto.
  - by apply sublist_skip.
  - by apply sublist_cons.
Qed.

Lemma filter_none_in {A : Type} (P : A -> Prop)
    `{!forall a, Decision (P a)} (l : list A) :
  (forall a, a ∈ l -> ~ P a) -> filter P l = [].
Proof.
  induction l as [|a l IH]; intros Hnone; [done|].
  rewrite filter_cons, decide_False by (apply Hnone; left).
  apply IH. intros b Hb. apply Hnone. by right.
Qed.

Lemma fmap_ext_in {A B : Type} (f g : A -> B) (l : list A) :
  (forall a, a ∈ l -> f a = g a) -> f <$> l = g <$> l.
Proof.
  induction l as [|a l IH]; intros Heq; [done|].
  rewrite !fmap_cons, (Heq a) by left.
  rewrite IH; [done|]. intros b Hb. apply Heq. by right.
Qed.

Lemma layer_voxels_allocated {VoxelType : Type} (layer : Layer VoxelType)
    (v : BlockIndex * Block VoxelType * Z) :
  v ∈ layer_voxels layer -> block_map layer !! v.1.1 = Some v.1.2.
Proof.
  intros Hin.
  pose proof (layer_voxels_voxel_of layer) as Hall.
  rewrite Forall_forall in Hall. by destruct (Hall v Hin).
Qed.

Section Bindings.
Context `{ColorModel}.

Lemma surface_pointcloud_voxels (layer : Layer TsdfVoxel)
    (surface_distance : spec_float) (pointcloud : list PointXYZRGB) :
  createSurfacePointcloudFromTsdfLayer layer surface_distance (Some pointcloud)
  = Done ((fun v => rgb_point (coord_at v) (tsdf_color (voxel_at v)))
            <$> filter
                  (fun v => tsdf_near_surface surface_distance (voxel_at v)
                            = true)
                  (layer_voxels layer)).
Proof.
  unfold createSurfacePointcloudFromTsdfLayer.
  rewrite color_pointcloud_calls. f_equal.
  apply (passed_calls_select _
           (fun voxel _ => tsdf_near_surface surface_distance voxel)
           (fun voxel _ => tsdf_color voxel) rgb_point).
  - intros voxel coord h.
    unfold visualizeNearSurfaceTsdfVoxels, tsdf_near_surface.
    by destruct (_ && _).
  - intros voxel coord h Hnear.
    unfold visualizeNearSurfaceTsdfVoxels.
    unfold tsdf_near_surface in Hnear. by rewrite Hnear.
Qed.

Lemma occupied_voxels_tsdf
    (voxels : list (BlockIndex * Block TsdfVoxel * Z)) :
  occupied_voxels visualizeOccupiedTsdfVoxels voxels
  = filter (fun v => tsdf_occupied (voxel_at v) = true) voxels.
Proof.
  unfold occupied_voxels. apply filter_ext_in. intros v _.
  unfold visualizeOccupiedTsdfVoxels, tsdf_occupied, tsdf_confident, voxel_at.
  by destruct (_ && _).
Qed.
End Bindings.

Lemma tsdf_distance_pointcloud_voxels (layer : Layer TsdfVoxel)
    (pointcloud : list PointXYZI) :
  createDistancePointcloudFromTsdfLayer layer (Some pointcloud)
  = Done ((fun v => xyzi_point (coord_at v)
                      (float_to_double (tsdf_distance (voxel_at v))))
            <$> filter (fun v => tsdf_confident (voxel_at v) = true)
                  (layer_voxels layer)).
Proof.
  unfold createDistancePointcloudFromTsdfLayer.
  rewrite intensity_pointcloud_calls. f_equal.
  apply (passed_calls_select _ (fun voxel _ => tsdf_confident voxel)
           (fun voxel _ => float_to_double (tsdf_distance voxel)) xyzi_point).
  - intros voxel coord h.
    unfold visualizeDistanceIntensityTsdfVoxels, tsdf_confident.
    by destruct (F64.gtb _ _).
  - intros voxel coord h Hconfident.
    unfold visualizeDistanceIntensityTsdfVoxels.
    unfold tsdf_confident in Hconfident. by rewrite Hconfident.
Qed.

Lemma esdf_distance_pointcloud_voxels (layer : Layer EsdfVoxel)
    (pointcloud : list PointXYZI) :
  createDistancePointcloudFromEsdfLayer layer (Some pointcloud)
  = Done ((fun v => xyzi_point (coord_at v)
                      (float_to_double (esdf_distance (voxel_at v))))
            <$> filter (fun v => esdf_observed (voxel_at v) = true)
                  (layer_voxels layer)).
Proof.
  unfold createDistancePointcloudFromEsdfLayer.
  rewrite intensity_pointcloud_calls. f_equal.
  apply (passed_calls_select _ (fun voxel _ => esdf_observed voxel)
           (fun voxel _ => float_to_double (esdf_distance voxel)) xyzi_point).
  - intros voxel coord h. unfold visualizeDistanceIntensityEsdfVoxels.
    by destruct (esdf_observed voxel).
  - intros voxel coord h Hobserved.
    unfold visualizeDistanceIntensityEsdfVoxels. by rewrite Hobserved.
Qed.

(** ** Signs through the conversion to [double] *)

Lemma binary_round_aux_sign (prec emax : Z) (sx : bool) (mx ex : Z)
    (lx : location) :
  match binary_round_aux prec emax sx mx ex lx with
  | S754_zero s | S754_infinity s | S754_finite s _ _ => s = sx
  | S754_nan => True
  end.
Proof.
  unfold binary_round_aux.
  destruct (shr_fexp prec emax mx ex lx) as [mrs' e'].
  destruct (shr_fexp prec emax _ e' loc_Exact) as [mrs'' e''].
  destruct (shr_m mrs''); [done| |done].
  by destruct (e'' <=? emax - prec).
Qed.

Lemma float_to_double_sign (x : spec_float) :
  match x, float_to_double x with
  | S754_nan, y => y = S754_nan
  | (S754_zero s | S754_infinity s | S754_finite s _ _),
    (S754_zero s' | S754_infinity s' | S754_finite s' _ _) => s' = s
  | _, S754_nan => True
  end.
Proof.
  destruct x as [s| s| |s m e]; try done.
  unfold float_to_double, binary_normalize.
  destruct s;
    [change (cond_Zopp true (Z.pos m)) with (Z.neg m)
    |change (cond_Zopp false (Z.pos m)) with (Z.pos m)];
    cbv iota; unfold binary_round;
    match goal with
    | |- context [shl_align ?mx ?ex ?ex'] =>
        destruct (shl_align mx ex ex') as [mz ez]
    end;
    apply binary_round_aux_sign.
Qed.

(** A value that is no positive number stays one in [double], and nothing
    is below it that is at least zero. *)
Lemma float_to_double_not_positive (x : spec_float) :
  not_positive x = true -> not_positive (float_to_double x) = true.
Proof.
  intros Hx. destruct x as [s|s| |s m e]; try done.
  assert (match float_to_double (S754_finite s m e) with
          | S754_nan => True
          | S754_zero s' | S754_infinity s' | S754_finite s' _ _ => s' = s
          end) as Hsign by exact (float_to_double_sign (S754_finite s m e)).
  destruct (float_to_double (S754_finite s m e)) as [s'|s'| |s' m' e'];
    cbn in *; congruence.
Qed.

Lemma float_to_double_abs_not_negative (x : spec_float) :
  not_positive (SFopp (float_to_double (SFabs x))) = true.
Proof.
  destruct x as [s|s| |s m e]; try done. cbn [SFabs].
  assert (match float_to_double (S754_finite false m e) with
          | S754_nan => True
          | S754_zero s' | S754_infinity s' | S754_finite s' _ _ => s' = false
          end) as Hsign
    by exact (float_to_double_sign (S754_finite false m e)).
  destruct (float_to_double (S754_finite false m e)) as [s'|s'| |s' m' e'];
    cbn in *; try done; by subst s'.
Qed.

Lemma SFltb_not_positive (x y : spec_float) :
  not_positive (SFopp x) = true -> not_positive y = true -> SFltb x y = false.
Proof.
  destruct x as [s|s| |s m e], y as [s'|s'| |s' m' e']; cbn;
    intros Hx Hy; try done; try (by destruct s, s'); try (by destruct s);
    try (by destruct s').
Qed.

(** ** The distance predicates *)

Lemma tsdf_confident_not_positive (voxel : TsdfVoxel) :
  not_positive (tsdf_weight voxel) = true -> tsdf_confident voxel = false.
Proof.
  intros Hweight. unfold tsdf_confident, F64.gtb.
  apply SFltb_not_positive; [reflexivity|].
  by apply float_to_double_not_positive.
Qed.

(** The [double] stored for a [float] distance: it narrows back to the
    distance, and for a number it is a [double] number of the same value. *)
Lemma stored_distance_exact (distance : spec_float) :
  valid_binary F32.prec F32.emax distance = true ->
  double_to_float (float_to_double distance) = distance
  /\ (is_finite distance = true ->
      is_double (float_to_double distance) = true
      /\ (SF2Q (float_to_double distance) == SF2Q distance)%Q).
Proof.
  intros Hvalid. split; [by apply double_to_float_to_double|].
  intros Hfinite.
  destruct (float_to_double_exact distance Hvalid Hfinite) as (Hv & Hf & Hq).
  split; [|done]. unfold is_double. by rewrite Hv, Hf.
Qed.

(** X2.  [visualizeDistanceIntensityTsdfVoxels] never reads the pointer and
    stores through it exactly when it passes.  For a weight that is a number
    it passes exactly when the weight is above [1/1000]; it fails for a
    weight that is zero, negative or NaN.  What it stores is the distance
    unchanged: the stored [double] narrows back to the [float] distance, and
    for a distance that is a number it has the same value. *)
Theorem distance_intensity_tsdf_predicate (voxel : TsdfVoxel) (coord : Point)
    (intensity : spec_float) :
  let result := visualizeDistanceIntensityTsdfVoxels voxel coord intensity in
  (forall coord' intensity',
     visualizeDistanceIntensityTsdfVoxels voxel coord' intensity' = result)
  /\ (result.2 = if result.1 then Some (float_to_double (tsdf_distance voxel))
                 else None)
  /\ (is_float (tsdf_weight voxel) = true ->
      result.1 = true <-> (1 # 1000 < SF2Q (tsdf_weight voxel))%Q)
  /\ (not_positive (tsdf_weight voxel) = true -> result = (false, None))
  /\ (valid_binary F32.prec F32.emax (tsdf_distance voxel) = true ->
      double_to_float (float_to_double (tsdf_distance voxel))
      = tsdf_distance voxel
      /\ (is_finite (tsdf_distance voxel) = true ->
          is_double (float_to_double (tsdf_distance voxel)) = true
          /\ (SF2Q (float_to_double (tsdf_distance voxel))
              == SF2Q (tsdf_distance voxel))%Q)).
Proof.
  cbv zeta. unfold visualizeDistanceIntensityTsdfVoxels.
  split; [done|]. split; [by destruct (F64.gtb _ _)|].
  split; [|split].
  - intros Hweight. rewrite <- weight_confident_numbers by done.
    by destruct (F64.gtb _ _).
  - intros Hweight.
    pose proof (tsdf_confident_not_positive voxel Hweight) as Hfail.
    unfold tsdf_confident in Hfail. by rewrite Hfail.
  - apply stored_distance_exact.
Qed.

Lemma distance_intensity_tsdf_predicate_witness :
  let result :=
    visualizeDistanceIntensityTsdfVoxels (sample_voxel 0)
      (sample_coordinates 0) (S754_zero false) in
  result.1 = true
  /\ double_to_float (float_to_double (tsdf_distance (sample_voxel 0)))
     = tsdf_distance (sample_voxel 0)
  /\ is_double (float_to_double (tsdf_distance (sample_voxel 0))) = true
  /\ (SF2Q (float_to_double (tsdf_distance (sample_voxel 0)))
      == SF2Q (tsdf_distance (sample_voxel 0)))%Q
  /\ visualizeDistanceIntensityTsdfVoxels (sample_voxel 1)
       (sample_coordinates 1) (S754_zero false) = (false, None).
Proof.
  destruct (distance_intensity_tsdf_predicate (sample_voxel 0)
              (sample_coordinates 0) (S754_zero false))
    as (_ & _ & Hnumbers & _ & Hstored).
  destruct (distance_intensity_tsdf_predicate (sample_voxel 1)
              (sample_coordinates 1) (S754_zero false))
    as (_ & _ & _ & Hfail & _).
  destruct (Hstored eq_refl) as [Hnarrow Hvalue].
  destruct (Hvalue eq_refl) as [Hdouble Hsame].
  split; [apply Hnumbers; [reflexivity|by vm_compute]|].
  split; [exact Hnarrow|]. split; [exact Hdouble|]. split; [exact Hsame|].
  apply Hfail. reflexivity.
Defined.

(** ** The pointclouds of the bindings *)

Lemma sample_layer_distances_valid : tsdf_distances_valid sample_layer.
Proof.
  intros index block i Hblock.
  unfold sample_layer in Hblock. cbn [block_map] in Hblock.
  apply lookup_singleton_Some in Hblock as [_ <-].
  cbn. unfold sample_voxel. by destruct (i =? 0).
Qed.

Lemma sample_esdf_layer_distances_valid : esdf_distances_valid sample_esdf_layer.
Proof.
  intros index block i Hblock.
  unfold sample_esdf_layer in Hblock. cbn [block_map] in Hblock.
  apply lookup_singleton_Some in Hblock as [_ <-].
  cbn. unfold sample_esdf_voxel. by destruct (i =? 0).
Qed.

(** X3.  [createDistancePointcloudFromTsdfLayer] dies on a null pointcloud.
    Otherwise, on a layer whose voxels hold [float] distances, it returns
    in traversal order one point per voxel whose weight is above [1e-3]: the
    point sits at the coordinate of the voxel and its intensity is the
    distance of that voxel, the same IEEE value (a NaN stays a NaN; its
    payload is not modelled). *)
Theorem tsdf_distance_pointcloud_exact (layer : Layer TsdfVoxel)
    (pointcloud : list PointXYZI) :
  tsdf_distances_valid layer ->
  createDistancePointcloudFromTsdfLayer layer None = Fatal
  /\ createDistancePointcloudFromTsdfLayer layer (Some pointcloud)
     = Done ((fun v =>
                {| i_x := x (coord_at v); i_y := y (coord_at v);
                   i_z := z (coord_at v);
                   i_intensity := tsdf_distance (voxel_at v) |})
               <$> filter (fun v => tsdf_confident (voxel_at v) = true)
                     (layer_voxels layer)).
Proof.
  intros Hvalid. split; [done|].
  rewrite tsdf_distance_pointcloud_voxels. f_equal.
  apply fmap_ext_in. intros v [_ Hin]%list_elem_of_filter.
  unfold xyzi_point. f_equal.
  apply double_to_float_to_double, (Hvalid v.1.1 v.1.2 v.2).
  by apply layer_voxels_allocated.
Qed.

Lemma tsdf_distance_pointcloud_exact_witness :
  createDistancePointcloudFromTsdfLayer sample_layer
    (Some [xyzi_point (sample_coordinates 3) (F64.of_Z 9)])
  = Done [{| i_x := x (sample_coordinates 0); i_y := y (sample_coordinates 0);
             i_z := z (sample_coordinates 0);
             i_intensity := F32.div (F32.of_Z 1) (F32.of_Z 20) |}].
Proof.
  destruct (tsdf_distance_pointcloud_exact sample_layer
              [xyzi_point (sample_coordinates 3) (F64.of_Z 9)]
              sample_layer_distances_valid) as [_ ->].
  vm_compute. reflexivity.
Defined.

(** X4.  [createDistancePointcloudFromEsdfLayer] dies on a null pointcloud.
    Otherwise, on a layer whose voxels hold [float] distances, it returns
    in traversal order one point per observed voxel, at the coordinate of
    the voxel and with the distance of that voxel, the same IEEE value (a
    NaN stays a NaN; its payload is not modelled), as intensity; a voxel
    that is not observed gives no point, whatever its distance. *)
Theorem esdf_distance_pointcloud_exact (layer : Layer EsdfVoxel)
    (pointcloud : list PointXYZI) :
  esdf_distances_valid layer ->
  createDistancePointcloudFromEsdfLayer layer None = Fatal
  /\ createDistancePointcloudFromEsdfLayer layer (Some pointcloud)
     = Done ((fun v =>
                {| i_x := x (coord_at v); i_y := y (coord_at v);
                   i_z := z (coord_at v);
                   i_intensity := esdf_distance (voxel_at v) |})
               <$> filter (fun v => esdf_observed (voxel_at v) = true)
                     (layer_voxels layer)).
Proof.
  intros Hvalid. split; [done|].
  rewrite esdf_distance_pointcloud_voxels. f_equal.
  apply fmap_ext_in. intros v [_ Hin]%list_elem_of_filter.
  unfold xyzi_point. f_equal.
  apply double_to_float_to_double, (Hvalid v.1.1 v.1.2 v.2).
  by apply layer_voxels_allocated.
Qed.

Lemma esdf_distance_pointcloud_exact_witness :
  createDistancePointcloudFromEsdfLayer sample_esdf_layer (Some [])
  = Done [{| i_x := x (sample_coordinates 0); i_y := y (sample_coordinates 0);
             i_z := z (sample_coordinates 0);
             i_intensity := F32.div (F32.of_Z 37) (F32.of_Z 10) |}].
Proof.
  destruct (esdf_distance_pointcloud_exact sample_esdf_layer []
              sample_esdf_layer_distances_valid) as [_ ->].
  vm_compute. reflexivity.
Defined.

(** X5.  [createSurfacePointcloudFromTsdfLayer] dies on a null pointcloud.
    Otherwise it returns in traversal order one point per voxel that is
    near the surface, at the coordinate of the voxel and in the red, green
    and blue of that same voxel: the default colour of the temporary never
    shows, and the colour model plays no part. *)
Theorem surface_pointcloud_own_colors (H1 H2 : ColorModel)
    (layer : Layer TsdfVoxel) (surface_distance : spec_float)
    (pointcloud : list PointXYZRGB) :
  createSurfacePointcloudFromTsdfLayer (H := H1) layer surface_distance None
  = Fatal
  /\ createSurfacePointcloudFromTsdfLayer (H := H1) layer surface_distance
       (Some pointcloud)
     = Done ((fun v =>
                {| rgb_x := x (coord_at v); rgb_y := y (coord_at v);
                   rgb_z := z (coord_at v);
                   rgb_r := r (tsdf_color (voxel_at v));
                   rgb_g := g (tsdf_color (voxel_at v));
                   rgb_b := b (tsdf_color (voxel_at v)) |})
               <$> filter
                     (fun v => tsdf_near_surface surface_distance (voxel_at v)
                               = true)
                     (layer_voxels layer))
  /\ createSurfacePointcloudFromTsdfLayer (H := H1) layer surface_distance
       (Some pointcloud)
     = createSurfacePointcloudFromTsdfLayer (H := H2) layer surface_distance
         (Some pointcloud).
Proof.
  split; [done|]. split; [apply surface_pointcloud_voxels|].
  by rewrite !surface_pointcloud_voxels.
Qed.

(** ** The surface distance *)

Lemma SFltb_infinity_finite (y : spec_float) :
  is_finite y = true -> SFltb (S754_infinity false) y = false.
Proof. by destruct y. Qed.

(** A voxel near the surface for one surface distance is near the surface
    for every larger one. *)
Lemma tsdf_near_surface_mono (t1 t2 : spec_float) (voxel : TsdfVoxel) :
  valid_binary F32.prec F32.emax (tsdf_distance voxel) = true ->
  is_double t1 = true -> is_double t2 = true ->
  (SF2Q t1 <= SF2Q t2)%Q ->
  tsdf_near_surface t1 voxel = true -> tsdf_near_surface t2 voxel = true.
Proof.
  intros Hvalid Ht1 Ht2 Hle. unfold tsdf_near_surface.
  intros [Hweight Hnear]%andb_true_iff. apply andb_true_iff.
  split; [done|].
  destruct (is_finite (tsdf_distance voxel)) eqn:Hfinite.
  - assert (is_float (tsdf_distance voxel) = true) as Hfloat
      by (unfold is_float; by rewrite Hvalid, Hfinite).
    apply distance_near_numbers in Hnear; [|done..].
    apply distance_near_numbers; [done..|].
    by apply (Qlt_le_trans _ (SF2Q t1)).
  - apply is_double_true in Ht1 as [_ Hf1].
    destruct (tsdf_distance voxel) as [s|s| |s m e];
      try discriminate Hfinite; [|discriminate Hnear].
    unfold F64.ltb, F32.abs in Hnear. cbn [SFabs float_to_double] in Hnear.
    by rewrite SFltb_infinity_finite in Hnear.
Qed.

(** X6.  The surface pointcloud grows with the surface distance: on a layer
    whose voxels hold [float] distances, the pointcloud for a surface
    distance is a sublist, in the same order, of the pointcloud for any
    larger surface distance. *)
Theorem surface_pointcloud_monotone `{ColorModel} (layer : Layer TsdfVoxel)
    (t1 t2 : spec_float) (pointcloud1 pointcloud2 : list PointXYZRGB) :
  tsdf_distances_valid layer ->
  is_double t1 = true -> is_double t2 = true ->
  (SF2Q t1 <= SF2Q t2)%Q ->
  exists narrow wide : list PointXYZRGB,
    createSurfacePointcloudFromTsdfLayer layer t1 (Some pointcloud1)
    = Done narrow
    /\ createSurfacePointcloudFromTsdfLayer layer t2 (Some pointcloud2)
       = Done wide
    /\ narrow `sublist_of` wide.
Proof.
  intros Hvalid Ht1 Ht2 Hle. rewrite !surface_pointcloud_voxels.
  eexists _, _. split; [done|]. split; [done|].
  apply fmap_sublist, filter_sublist_in. intros v Hin.
  apply tsdf_near_surface_mono; [|done..].
  apply (Hvalid v.1.1 v.1.2 v.2). by apply layer_voxels_allocated.
Qed.

Lemma surface_pointcloud_monotone_witness :
  exists narrow wide : list PointXYZRGB,
    createSurfacePointcloudFromTsdfLayer (H := sample_color_model) sample_layer
      (F64.div (F64.of_Z 1) (F64.of_Z 100)) (Some [])
    = Done narrow
    /\ createSurfacePointcloudFromTsdfLayer (H := sample_color_model)
         sample_layer (F64.div (F64.of_Z 1) (F64.of_Z 10)) (Some [])
       = Done wide
    /\ narrow `sublist_of` wide.
Proof.
  apply (surface_pointcloud_monotone (H := sample_color_model) sample_layer
           (F64.div (F64.of_Z 1) (F64.of_Z 100))
           (F64.div (F64.of_Z 1) (F64.of_Z 10)) [] []
           sample_layer_distances_valid);
    [reflexivity|reflexivity|by vm_compute].
Defined.

Lemma tsdf_near_surface_not_positive (surface_distance : spec_float)
    (voxel : TsdfVoxel) :
  not_positive surface_distance = true ->
  tsdf_near_surface surface_distance voxel = false.
Proof.
  intros Hthreshold. unfold tsdf_near_surface, F64.ltb, F32.abs.
  rewrite (SFltb_not_positive _ surface_distance);
    [apply andb_false_r|apply float_to_double_abs_not_negative|done].
Qed.

Lemma tsdf_near_surface_unobserved (surface_distance : spec_float)
    (voxel : TsdfVoxel) :
  not_positive (tsdf_weight voxel) = true ->
  tsdf_near_surface surface_distance voxel = false.
Proof.
  intros Hweight. unfold tsdf_near_surface, F32.gtb.
  by rewrite (SFltb_not_positive (F32.of_Z 0) (tsdf_weight voxel)).
Qed.

(** X7.  A surface distance that is zero, negative or NaN shows nothing:
    [visualizeNearSurfaceTsdfVoxels] then fails on every voxel and stores
    nothing, and [createSurfacePointcloudFromTsdfLayer] returns the empty
    pointcloud for every layer. *)
Theorem surface_distance_not_positive `{ColorModel} (layer : Layer TsdfVoxel)
    (surface_distance : spec_float) (pointcloud : list PointXYZRGB)
    (voxel : TsdfVoxel) (coord : Point) (color : Color) :
  not_positive surface_distance = true ->
  visualizeNearSurfaceTsdfVoxels voxel coord surface_distance color
  = (false, None)
  /\ createSurfacePointcloudFromTsdfLayer layer surface_distance
       (Some pointcloud)
     = Done [].
Proof.
  intros Hthreshold. split.
  - pose proof (tsdf_near_surface_not_positive surface_distance voxel
                  Hthreshold) as Hfail.
    unfold visualizeNearSurfaceTsdfVoxels.
    unfold tsdf_near_surface in Hfail. by rewrite Hfail.
  - rewrite surface_pointcloud_voxels. f_equal.
    rewrite filter_none_in; [done|]. intros v _.
    by rewrite (tsdf_near_surface_not_positive surface_distance (voxel_at v)).
Qed.

Lemma surface_distance_not_positive_witness :
  (visualizeNearSurfaceTsdfVoxels (sample_voxel 0) (sample_coordinates 0)
     (S754_zero false) sample_color
   = (false, None)
   /\ createSurfacePointcloudFromTsdfLayer (H := sample_color_model)
        sample_layer (S754_zero false) (Some [])
      = Done [])
  /\ (visualizeNearSurfaceTsdfVoxels (sample_voxel 0) (sample_coordinates 0)
        S754_nan sample_color
      = (false, None)
      /\ createSurfacePointcloudFromTsdfLayer (H := sample_color_model)
           sample_layer S754_nan (Some [])
         = Done []).
Proof.
  split.
  - apply (surface_distance_not_positive (H := sample_color_model)
             sample_layer (S754_zero false) [] (sample_voxel 0)
             (sample_coordinates 0) sample_color).
    reflexivity.
  - apply (surface_distance_not_positive (H := sample_color_model)
             sample_layer S754_nan [] (sample_voxel 0)
             (sample_coordinates 0) sample_color).
    reflexivity.
Defined.

(** ** Voxels that were never observed *)

Lemma tsdf_occupied_unobserved (voxel : TsdfVoxel) :
  not_positive (tsdf_weight voxel) = true -> tsdf_occupied voxel = false.
Proof.
  intros Hweight. unfold tsdf_occupied.
  by rewrite tsdf_confident_not_positive.
Qed.

Lemma unobserved_layer_unobserved : tsdf_unobserved unobserved_layer.
Proof.
  intros index block i Hblock.
  unfold unobserved_layer in Hblock. cbn [block_map] in Hblock.
  by apply lookup_singleton_Some in Hblock as [_ <-].
Qed.

(** X8.  A voxel whose weight is zero, negative or NaN is never shown.  On
    a layer without a voxel of positive weight the three sample predicates
    for TSDF voxels fail on every voxel and store nothing, the surface and
    the distance pointcloud are empty, and the occupancy marker has no
    points and no colours. *)
Theorem unobserved_voxels_never_shown `{ColorModel} (layer : Layer TsdfVoxel)
    (surface_distance : spec_float) (frame_id : string)
    (pointcloud_rgb : list PointXYZRGB) (pointcloud_i : list PointXYZI)
    (markers : MarkerArray) :
  tsdf_unobserved layer ->
  (forall index block linear_index coord color intensity,
     block_map layer !! index = Some block ->
     let voxel := getVoxelByLinearIndex block linear_index in
     visualizeNearSurfaceTsdfVoxels voxel coord surface_distance color
     = (false, None)
     /\ visualizeDistanceIntensityTsdfVoxels voxel coord intensity
        = (false, None)
     /\ visualizeOccupiedTsdfVoxels voxel coord = false)
  /\ createSurfacePointcloudFromTsdfLayer layer surface_distance
       (Some pointcloud_rgb)
     = Done []
  /\ createDistancePointcloudFromTsdfLayer layer (Some pointcloud_i) = Done []
  /\ exists block_marker : Marker,
       createOccupancyBlocksFromTsdfLayer layer frame_id (Some markers)
       = Done (markers ++ [block_marker])
       /\ points block_marker = [] /\ colors block_marker = [].
Proof.
  intros Hunobserved.
  assert (forall v, v ∈ layer_voxels layer ->
                    not_positive (tsdf_weight (voxel_at v)) = true) as Hvoxels.
  { intros v Hin. apply (Hunobserved v.1.1 v.1.2 v.2).
    by apply layer_voxels_allocated. }
  split; [|split; [|split]].
  - intros index block i coord color intensity Hblock voxel.
    pose proof (Hunobserved index block i Hblock) as Hweight. fold voxel in Hweight.
    pose proof (tsdf_near_surface_unobserved surface_distance voxel Hweight)
      as Hnear.
    pose proof (tsdf_confident_not_positive voxel Hweight) as Hconfident.
    unfold visualizeNearSurfaceTsdfVoxels, visualizeDistanceIntensityTsdfVoxels,
      visualizeOccupiedTsdfVoxels.
    unfold tsdf_near_surface in Hnear. unfold tsdf_confident in Hconfident.
    rewrite Hnear, Hconfident. cbn [andb]. repeat split; reflexivity.
  - rewrite surface_pointcloud_voxels, filter_none_in; [done|].
    intros v Hin. by rewrite tsdf_near_surface_unobserved by auto.
  - rewrite tsdf_distance_pointcloud_voxels, filter_none_in; [done|].
    intros v Hin. by rewrite tsdf_confident_not_positive by auto.
  - unfold createOccupancyBlocksFromTsdfLayer.
    rewrite occupancy_blocks_marker. eexists. split; [done|].
    unfold occupancy_marker. cbn [points colors].
    rewrite occupied_voxels_tsdf, filter_none_in; [done|].
    intros v Hin. by rewrite tsdf_occupied_unobserved by auto.
Qed.

Lemma unobserved_voxels_never_shown_witness :
  createSurfacePointcloudFromTsdfLayer (H := sample_color_model)
    unobserved_layer (F64.of_Z 1) (Some [])
  = Done []
  /\ createDistancePointcloudFromTsdfLayer unobserved_layer (Some []) = Done []
  /\ exists block_marker : Marker,
       createOccupancyBlocksFromTsdfLayer (H := sample_color_model)
         unobserved_layer "map" (Some [])
       = Done ([] ++ [block_marker])
       /\ points block_marker = [] /\ colors block_marker = [].
Proof.
  apply (unobserved_voxels_never_shown (H := sample_color_model)
           unobserved_layer (F64.of_Z 1) "map" [] [] []
           unobserved_layer_unobserved).
Defined.

(** ** The markers of the occupancy traversal *)

Lemma repeated_calls_replicate `{ColorModel} {VoxelType : Type} (n : nat)
    (layer : Layer VoxelType)
    (vis_function : ShouldVisualizeVoxelFunctionType VoxelType)
    (frame_id : string) (markers : MarkerArray) :
  repeated_calls n layer vis_function frame_id markers
  = Done (markers
          ++ replicate n (occupancy_marker layer vis_function frame_id)).
Proof.
  revert markers. induction n as [|n IH]; intros markers.
  - cbn. by rewrite app_nil_r.
  - cbn [repeated_calls]. rewrite occupancy_blocks_marker.
    cbn [mbind outcome_bind]. rewrite IH, <- app_assoc. reflexivity.
Qed.

(** X9.  Every call of [createOccupancyBlocksFromLayer] on a layer pushes
    the same marker: a cube list to add, in the frame given, always in the
    namespace [occupied_voxels] and with id [0], so the markers of repeated
    calls on one array are copies that share namespace and id.  The three
    scales are the voxel size of the layer, as a [double] of the same
    value. *)
Theorem occupancy_markers_share_id `{ColorModel} {VoxelType : Type}
    (layer : Layer VoxelType)
    (vis_function : ShouldVisualizeVoxelFunctionType VoxelType)
    (frame_id : string) (markers : MarkerArray) (n : nat) :
  exists block_marker : Marker,
    createOccupancyBlocksFromLayer layer vis_function frame_id (Some markers)
    = Done (markers ++ [block_marker])
    /\ repeated_calls n layer vis_function frame_id markers
       = Done (markers ++ replicate n block_marker)
    /\ header_frame_id block_marker = frame_id
    /\ ns block_marker = "occupied_voxels"%string
    /\ id block_marker = 0
    /\ type block_marker = Marker_CUBE_LIST
    /\ action block_marker = Marker_ADD
    /\ scale_x block_marker = scale_y block_marker
    /\ scale_y block_marker = scale_z block_marker
    /\ (is_float (voxel_size layer) = true ->
        is_double (scale_x block_marker) = true
        /\ (SF2Q (scale_x block_marker) == SF2Q (voxel_size layer))%Q).
Proof.
  exists (occupancy_marker layer vis_function frame_id).
  split; [apply occupancy_blocks_marker|].
  split; [apply repeated_calls_replicate|].
  repeat (split; [reflexivity|]).
  intros [Hvalid Hfinite]%is_float_true. cbn [scale_x occupancy_marker].
  by apply stored_distance_exact.
Qed.

Lemma occupancy_markers_share_id_witness :
  exists block_marker : Marker,
    repeated_calls (H := sample_color_model) 3 grown_layer
      visualizeOccupiedTsdfVoxels "map" [earlier_marker]
    = Done [earlier_marker; block_marker; block_marker; block_marker]
    /\ id block_marker = 0
    /\ (SF2Q (scale_x block_marker) == 1)%Q.
Proof.
  destruct (occupancy_markers_share_id (H := sample_color_model) grown_layer
              visualizeOccupiedTsdfVoxels "map" [earlier_marker] 3)
    as (block_marker & _ & Hcalls & _ & _ & Hid & _ & _ & _ & _ & Hscale).
  exists block_marker. split; [exact Hcalls|]. split; [exact Hid|].
  destruct (Hscale eq_refl) as [_ ->]. reflexivity.
Defined.

(** X10.  Every cube of [createOccupancyBlocksFromTsdfLayer] sits on a
    point of [createDistancePointcloudFromTsdfLayer]: the points of the
    marker are the positions of a sublist of the distance pointcloud, in
    the same order, and the marker has one colour for each. *)
Theorem occupancy_within_distance_pointcloud `{ColorModel}
    (layer : Layer TsdfVoxel) (frame_id : string) (markers : MarkerArray)
    (pointcloud : list PointXYZI) :
  exists (block_marker : Marker) (cloud shown : list PointXYZI),
    createOccupancyBlocksFromTsdfLayer layer frame_id (Some markers)
    = Done (markers ++ [block_marker])
    /\ createDistancePointcloudFromTsdfLayer layer (Some pointcloud)
       = Done cloud
    /\ shown `sublist_of` cloud
    /\ points block_marker = xyzi_position <$> shown
    /\ length (colors block_marker) = length shown.
Proof.
  unfold createOccupancyBlocksFromTsdfLayer.
  rewrite occupancy_blocks_marker, tsdf_distance_pointcloud_voxels.
  eexists _, _,
    ((fun v => xyzi_point (coord_at v)
                 (float_to_double (tsdf_distance (voxel_at v))))
       <$> filter (fun v => tsdf_occupied (voxel_at v) = true)
             (layer_voxels layer)).
  split; [done|]. split; [done|]. split; [|split].
  - apply fmap_sublist, filter_sublist_in. intros v _.
    unfold tsdf_occupied. by intros [? _]%andb_true_iff.
  - unfold occupancy_marker. cbn [points].
    rewrite occupied_voxels_tsdf, <- list_fmap_compose. reflexivity.
  - unfold occupancy_marker. cbn [colors].
    by rewrite occupied_voxels_tsdf, !length_fmap.
Qed.

(** ** How many entries, and the wrap of the voxel count *)

Lemma num_voxels_per_block_range {VoxelType : Type} (layer : Layer VoxelType) :
  0 <= num_voxels_per_block layer < size_t_modulus.
Proof.
  unfold num_voxels_per_block, size_t_mul. apply Z.mod_pos_bound. reflexivity.
Qed.

Lemma length_passed_calls {VoxelType S : Type}
    (vis_function : VoxelType -> Point -> S -> bool * option S) (held : S)
    (layer : Layer VoxelType) :
  Z.of_nat (length (passed (calls vis_function held (layer_voxels layer))))
  <= Z.of_nat (size (block_map layer)) * num_voxels_per_block layer.
Proof.
  pose proof (length_filter (fun c => call_pass c = true)
                (calls vis_function held (layer_voxels layer))) as Hfilter.
  rewrite length_calls, length_layer_voxels in Hfilter.
  pose proof (num_voxels_per_block_range layer) as [Hnonneg _].
  unfold passed. nia.
Qed.

(** X11.  No traversal makes more entries than the layer has visited
    voxels: whatever the predicate, a pointcloud has at most as many points,
    and the marker at most as many points and colours, as the number of
    allocated blocks times the cached voxel count of a block, which is a
    [size_t]. *)
Theorem entries_at_most_visited_voxels `{ColorModel} {VoxelType : Type}
    (layer : Layer VoxelType)
    (vis_color : ShouldVisualizeVoxelColorFunctionType VoxelType)
    (vis_intensity : ShouldVisualizeVoxelIntensityFunctionType VoxelType)
    (vis_occupied : ShouldVisualizeVoxelFunctionType VoxelType)
    (frame_id : string) (pointcloud_rgb : list PointXYZRGB)
    (pointcloud_i : list PointXYZI) (markers : MarkerArray) :
  let visited :=
    Z.of_nat (size (block_map layer)) * num_voxels_per_block layer in
  0 <= num_voxels_per_block layer < 2 ^ 64
  /\ (exists out,
        XYZRGB.createColorPointcloudFromLayer layer vis_color
          (Some pointcloud_rgb) = Done out
        /\ Z.of_nat (length out) <= visited)
  /\ (exists out,
        XYZI.createColorPointcloudFromLayer layer vis_intensity
          (Some pointcloud_i) = Done out
        /\ Z.of_nat (length out) <= visited)
  /\ (exists block_marker,
        createOccupancyBlocksFromLayer layer vis_occupied frame_id
          (Some markers) = Done (markers ++ [block_marker])
        /\ Z.of_nat (length (points block_marker)) <= visited
        /\ Z.of_nat (length (colors block_marker)) <= visited).
Proof.
  cbv zeta. split; [apply num_voxels_per_block_range|].
  rewrite color_pointcloud_calls, intensity_pointcloud_calls,
    occupancy_blocks_marker.
  split; [|split].
  - eexists. split; [done|]. rewrite length_fmap. apply length_passed_calls.
  - eexists. split; [done|]. rewrite length_fmap. apply length_passed_calls.
  - eexists. split; [done|]. unfold occupancy_marker. cbn [points colors].
    rewrite !length_fmap.
    pose proof (length_filter
                  (fun v => vis_occupied (getVoxelByLinearIndex v.1.2 v.2)
                              (computeCoordinatesFromLinearIndex v.1.2 v.2)
                            = true) (layer_voxels layer)) as Hfilter.
    rewrite length_layer_voxels in Hfilter.
    pose proof (num_voxels_per_block_range layer) as [Hnonneg _].
    unfold occupied_voxels. nia.
Qed.

Lemma num_voxels_per_block_wraps {VoxelType : Type} (layer : Layer VoxelType) :
  voxels_per_side layer mod 2 ^ 22 = 0 -> num_voxels_per_block layer = 0.
Proof.
  intros Hside. apply Z.mod_divide in Hside as [k Hk]; [|done].
  unfold num_voxels_per_block, size_t_mul.
  rewrite Z.mul_mod_idemp_l by done. rewrite Hk.
  replace (k * 2 ^ 22 * (k * 2 ^ 22) * (k * 2 ^ 22))
    with (4 * k * k * k * size_t_modulus)
    by (unfold size_t_modulus, size_t_bits; ring).
  by apply Z.mod_mul.
Qed.

Lemma layer_voxels_wraps {VoxelType : Type} (layer : Layer VoxelType) :
  num_voxels_per_block layer = 0 -> layer_voxels layer = [].
Proof.
  intros Hnone. unfold layer_voxels. rewrite Hnone.
  induction (map_to_list (block_map layer)) as [|[index block] kvs IH];
    [done|].
  by rewrite bind_cons, IH.
Qed.

(** X12.  The voxel count [vps * vps * vps] is a [size_t] product and
    wraps: when the side is a multiple of [2 ^ 22], the side [0] included,
    it is [0], the traversals visit no voxel of any block, and the
    pointclouds and the marker come out empty whatever the predicate and
    however many blocks are allocated. *)
Theorem wrapped_voxel_count_visits_nothing `{ColorModel} {VoxelType : Type}
    (layer : Layer VoxelType)
    (vis_color : ShouldVisualizeVoxelColorFunctionType VoxelType)
    (vis_intensity : ShouldVisualizeVoxelIntensityFunctionType VoxelType)
    (vis_occupied : ShouldVisualizeVoxelFunctionType VoxelType)
    (frame_id : string) (pointcloud_rgb : list PointXYZRGB)
    (pointcloud_i : list PointXYZI) (markers : MarkerArray) :
  voxels_per_side layer mod 2 ^ 22 = 0 ->
  num_voxels_per_block layer = 0
  /\ XYZRGB.createColorPointcloudFromLayer layer vis_color
       (Some pointcloud_rgb) = Done []
  /\ XYZI.createColorPointcloudFromLayer layer vis_intensity
       (Some pointcloud_i) = Done []
  /\ exists block_marker,
       createOccupancyBlocksFromLayer layer vis_occupied frame_id
         (Some markers) = Done (markers ++ [block_marker])
       /\ points block_marker = [] /\ colors block_marker = [].
Proof.
  intros Hside.
  pose proof (num_voxels_per_block_wraps layer Hside) as Hnone.
  pose proof (layer_voxels_wraps layer Hnone) as Hvoxels.
  split; [done|].
  rewrite color_pointcloud_calls, intensity_pointcloud_calls,
    occupancy_blocks_marker.
  unfold occupancy_marker. rewrite Hvoxels.
  split; [done|]. split; [done|]. by eexists.
Qed.

Lemma wrapped_voxel_count_visits_nothing_witness :
  (size (block_map wrapping_layer) = 1%nat
   /\ voxels_per_side wrapping_layer ^ 3 = 2 ^ 66)
  /\ num_voxels_per_block wrapping_layer = 0
  /\ XYZRGB.createColorPointcloudFromLayer (H := sample_color_model)
       wrapping_layer (fun voxel _ _ => (true, Some (tsdf_color voxel)))
       (Some []) = Done []
  /\ XYZI.createColorPointcloudFromLayer wrapping_layer
       visualizeDistanceIntensityTsdfVoxels (Some []) = Done []
  /\ exists block_marker,
       createOccupancyBlocksFromLayer (H := sample_color_model) wrapping_layer
         visualizeOccupiedTsdfVoxels "map" (Some [])
       = Done ([] ++ [block_marker])
       /\ points block_marker = [] /\ colors block_marker = [].
Proof.
  split; [split; reflexivity|].
  apply (wrapped_voxel_count_visits_nothing (H := sample_color_model)
           wrapping_layer (fun voxel _ _ => (true, Some (tsdf_color voxel)))
           visualizeDistanceIntensityTsdfVoxels visualizeOccupiedTsdfVoxels
           "map" [] [] []).
  reflexivity.
Defined.

(** ** Allocating one more block *)

Lemma layer_voxels_insert {VoxelType : Type} (layer layer' : Layer VoxelType)
    (index : BlockIndex) (block : Block VoxelType) :
  voxels_per_side layer' = voxels_per_side layer ->
  block_map layer !! index = None ->
  block_map layer' = <[index := block]> (block_map layer) ->
  layer_voxels layer'
  ≡ₚ block_voxels (num_voxels_per_block layer) index block
     ++ layer_voxels layer.
Proof.
  intros Hside Hfree Hmap. unfold layer_voxels, num_voxels_per_block.
  rewrite Hside, Hmap, (map_to_list_insert _ _ _ Hfree), bind_cons.
  reflexivity.
Qed.

(** X13.  Allocating one more block in a layer adds the entries of that
    block and keeps all others: up to their order, the points and the
    colours of the occupancy marker of the larger layer are the cubes of
    the voxels the predicate accepts in the new block together with the
    points and colours of the marker of the smaller layer. *)
Theorem allocated_block_adds_its_cubes `{ColorModel} {VoxelType : Type}
    (layer layer' : Layer VoxelType) (index : BlockIndex)
    (block : Block VoxelType)
    (vis_function : ShouldVisualizeVoxelFunctionType VoxelType)
    (frame_id : string) (markers markers' : MarkerArray) :
  voxels_per_side layer' = voxels_per_side layer ->
  block_map layer !! index = None ->
  block_map layer' = <[index := block]> (block_map layer) ->
  let added :=
    occupied_voxels vis_function
      (block_voxels (num_voxels_per_block layer) index block) in
  exists before after : Marker,
    createOccupancyBlocksFromLayer layer vis_function frame_id (Some markers)
    = Done (markers ++ [before])
    /\ createOccupancyBlocksFromLayer layer' vis_function frame_id
         (Some markers')
       = Done (markers' ++ [after])
    /\ points after ≡ₚ (cube_center <$> added) ++ points before
    /\ colors after ≡ₚ (cube_color <$> added) ++ colors before.
Proof.
  intros Hside Hfree Hmap added.
  pose proof (layer_voxels_insert layer layer' index block Hside Hfree Hmap)
    as Hvoxels.
  rewrite !occupancy_blocks_marker. eexists _, _.
  split; [done|]. split; [done|].
  unfold occupancy_marker. cbn [points colors]. unfold occupied_voxels.
  rewrite Hvoxels, filter_app, !fmap_app. done.
Qed.

Lemma grown_layer_block_free : block_map sample_layer !! (1, 0, 0) = None.
Proof. reflexivity. Qed.

Lemma allocated_block_adds_its_cubes_witness :
  exists before after : Marker,
    createOccupancyBlocksFromLayer (H := sample_color_model) sample_layer
      visualizeOccupiedTsdfVoxels "map" (Some [])
    = Done ([] ++ [before])
    /\ createOccupancyBlocksFromLayer (H := sample_color_model) grown_layer
         visualizeOccupiedTsdfVoxels "map" (Some [])
       = Done ([] ++ [after])
    /\ points after
       ≡ₚ (cube_center
             <$> occupied_voxels visualizeOccupiedTsdfVoxels
                   (block_voxels (num_voxels_per_block sample_layer) (1, 0, 0)
                      inside_block))
          ++ points before
    /\ colors after
       ≡ₚ (cube_color (H := sample_color_model)
             <$> occupied_voxels visualizeOccupiedTsdfVoxels
                   (block_voxels (num_voxels_per_block sample_layer) (1, 0, 0)
                      inside_block))
          ++ colors before.
Proof.
  apply (allocated_block_adds_its_cubes (H := sample_color_model) sample_layer
           grown_layer (1, 0, 0) inside_block visualizeOccupiedTsdfVoxels
           "map" [] []);
    [reflexivity|exact grown_layer_block_free|reflexivity].
Defined.





